(** * auth-amar: the session store and the preference store

    A shallow embedding of the state-and-persistence layer of the
    application: [context/AuthContext.tsx] (the session store),
    [context/ThemeContext.tsx] (the preference store) and
    [utils/storage.ts] (the adapter over AsyncStorage), with the parts of
    the screens, of the navigation and of [App.tsx] that decide what is
    called and what is shown, followed by the properties of the
    specification that concern them and by further properties of the code.

    Conventions of the embedding.
    - A JavaScript string is a [string]; one character stands for one code
      unit, so [String.length] is the [.length] of the source.
    - An [async] function is a computation in the monad [M]: it threads the
      [World] (React state cells, the AsyncStorage contents, the alerts and
      the console) and either returns or throws.  A call runs to
      completion; where [login] waits for its timer is marked, and
      [login_begin] and [login_resume] are the call cut there, for two calls
      that overlap.
    - What the environment decides is an argument of the operation: whether
      an AsyncStorage call resolves or rejects ([io]), and what
      [Date.now()] reads. *)

From Stdlib Require Import Ascii QArith.
From stdpp Require Import base strings gmap pretty list.

Set Warnings "-register-all".

(** ** JavaScript values *)

Module JS.

(** The numbers [JSON.parse] can return: a finite value (the two zeros are
    both [Finite 0]) or an infinity, which a literal too large for a
    double reads as. *)
Inductive number : Type :=
| Finite (q : Q)
| PosInfinity
| NegInfinity.

Inductive value : Type :=
| Null
| Bool (b : bool)
| Num (n : number)
| Str (s : string)
| Arr (items : list value)
| Obj (fields : list (string * value)).

(** [if (v)]: the falsy values are [null], [false], zero and the empty
    string; arrays and objects are always truthy. *)
Definition truthy (v : value) : bool :=
  match v with
  | Null => false
  | Bool b => b
  | Num (Finite q) => negb (Qnum q =? 0)%Z
  | Num _ => true
  | Str "" => false
  | Str _ => true
  | Arr _ | Obj _ => true
  end.

Definition is_null (v : value) : bool :=
  match v with Null => true | _ => false end.

(** [o[k]] on an object literal; the first binding of a key wins. *)
Fixpoint lookup_field (k : string) (fields : list (string * value)) : option value :=
  match fields with
  | [] => None
  | (k', v) :: rest => if String.eqb k k' then Some v else lookup_field k rest
  end.

Definition get (k : string) (v : value) : option value :=
  match v with
  | Obj fields => lookup_field k fields
  | _ => None
  end.

(** What a [catch] clause receives: an [Error] with its message, or some
    other thrown value ([error instanceof Error] tells them apart). *)
Inductive thrown : Type :=
| ErrorObject (message : string)
| NonError.

(** [!s] on a string. *)
Definition not_str (s : string) : bool :=
  match s with "" => true | _ => false end.

(** [s.includes(sub)] *)
Fixpoint includes (s sub : string) : bool :=
  String.prefix sub s ||
  match s with
  | "" => false
  | String _ s' => includes s' sub
  end.

(** [s.split(sep)] for a separator of one character. *)
Fixpoint split (s : string) (sep : Ascii.ascii) : list string :=
  match s with
  | "" => [""]
  | String c s' =>
      if Ascii.eqb c sep then "" :: split s' sep
      else match split s' sep with
           | piece :: pieces => String c piece :: pieces
           | [] => [String c ""]
           end
  end.

(** [n.toString()] on an integer. *)
Definition toString (n : Z) : string := pretty n.

End JS.

(** ** The JSON functions of the runtime

    [JSON.parse] and [JSON.stringify] belong to the JavaScript engine, not
    to the repository: the development is parametric in them.  [JSON_parse]
    answers [None] where the engine throws a [SyntaxError], which it does on
    the empty text. *)

Class JsonRuntime : Type := {
  JSON_parse : string → option JS.value;
  JSON_stringify : JS.value → string;
  JSON_parse_empty : JSON_parse "" = None
}.

(** ** types/auth.types.ts *)

Module User.
Record t : Type := { id : string; email : string; name : string }.

(** The object literal [{ id, email, name }]. *)
Definition to_value (u : t) : JS.value :=
  JS.Obj [("id", JS.Str (id u)); ("email", JS.Str (email u)); ("name", JS.Str (name u))].
End User.

Module AuthState.
(** [user] holds whatever value the store was given: [JS.Null] for
    [null], the object of a [User.t] after a login, or the value read
    back from storage. *)
Record t : Type := {
  user : JS.value;
  isLoading : bool;
  isAuthenticated : bool;
  isInitializing : bool
}.
End AuthState.

Module LoginCredentials.
Record t : Type := { email : string; password : string }.
End LoginCredentials.

Module SignupCredentials.
Record t : Type := { name : string; email : string; password : string }.
End SignupCredentials.

Module AuthResponse.
Record t : Type := {
  success : bool;
  user : option User.t;
  error : option string
}.
End AuthResponse.

(** ** The world the two providers run in *)

Inductive ThemeName : Type := light | dark.

(** A call made to AsyncStorage, whether or not it then succeeds. *)
Inductive Request : Type :=
| GetItem (key : string)
| SetItem (key value : string)
| RemoveItem (key : string).

Record World : Type := {
  authState : AuthState.t;            (* AuthProvider: useState<AuthState> *)
  authTrace : list AuthState.t;       (* every value setAuthState produced, latest first *)
  theme : ThemeName;                  (* ThemeProvider: useState<ThemeName> *)
  themeIsLoading : bool;              (* ThemeProvider: useState(true) *)
  disk : gmap string string;          (* the contents of AsyncStorage *)
  requests : list Request;            (* the calls made to AsyncStorage, latest first *)
  alerts : list (string * string);    (* Alert.alert(title, message), latest first *)
  console : list string               (* console.error / console.log labels, latest first *)
}.

Definition with_authState (s : AuthState.t) (w : World) : World :=
  {| authState := s; authTrace := s :: authTrace w; theme := theme w;
     themeIsLoading := themeIsLoading w; disk := disk w; requests := requests w;
     alerts := alerts w; console := console w |}.

Definition with_theme (t : ThemeName) (w : World) : World :=
  {| authState := authState w; authTrace := authTrace w; theme := t;
     themeIsLoading := themeIsLoading w; disk := disk w; requests := requests w;
     alerts := alerts w; console := console w |}.

Definition with_themeIsLoading (b : bool) (w : World) : World :=
  {| authState := authState w; authTrace := authTrace w; theme := theme w;
     themeIsLoading := b; disk := disk w; requests := requests w;
     alerts := alerts w; console := console w |}.

Definition with_disk (d : gmap string string) (w : World) : World :=
  {| authState := authState w; authTrace := authTrace w; theme := theme w;
     themeIsLoading := themeIsLoading w; disk := d; requests := requests w;
     alerts := alerts w; console := console w |}.

Definition with_request (r : Request) (w : World) : World :=
  {| authState := authState w; authTrace := authTrace w; theme := theme w;
     themeIsLoading := themeIsLoading w; disk := disk w; requests := r :: requests w;
     alerts := alerts w; console := console w |}.

Definition with_alert (title message : string) (w : World) : World :=
  {| authState := authState w; authTrace := authTrace w; theme := theme w;
     themeIsLoading := themeIsLoading w; disk := disk w; requests := requests w;
     alerts := (title, message) :: alerts w; console := console w |}.

Definition with_console (label : string) (w : World) : World :=
  {| authState := authState w; authTrace := authTrace w; theme := theme w;
     themeIsLoading := themeIsLoading w; disk := disk w; requests := requests w;
     alerts := alerts w; console := label :: console w |}.

(** ** Computations that may throw *)

Inductive Outcome (A : Type) : Type :=
| Returned (a : A)
| Threw (e : JS.thrown).
Arguments Returned {A} a.
Arguments Threw {A} e.

Definition M (A : Type) : Type := World → Outcome A * World.

Definition ret {A} (a : A) : M A := λ w, (Returned a, w).

Definition throw {A} (e : JS.thrown) : M A := λ w, (Threw e, w).

Definition bind {A B} (m : M A) (k : A → M B) : M B :=
  λ w, match m w with
       | (Returned a, w') => k a w'
       | (Threw e, w') => (Threw e, w')
       end.

(** [try { body } catch (error) { handler }] *)
Definition try_catch {A} (body : M A) (handler : JS.thrown → M A) : M A :=
  λ w, match body w with
       | (Returned a, w') => (Returned a, w')
       | (Threw e, w') => handler e w'
       end.

(** [try { body } finally { cleanup }]: the cleanup runs either way, and
    the outcome is the body's unless the cleanup itself throws. *)
Definition try_finally {A} (body : M A) (cleanup : M unit) : M A :=
  λ w, match body w with
       | (r, w') =>
           match cleanup w' with
           | (Returned _, w'') => (r, w'')
           | (Threw e, w'') => (Threw e, w'')
           end
       end.

(** A statement that only changes the world. *)
Definition effect (f : World → World) : M unit := λ w, (Returned tt, f w).

(** [if (c) { throw new Error(message) }] *)
Definition throw_if (c : bool) (message : string) : M unit :=
  if c then throw (JS.ErrorObject message) else ret tt.

#[export] Instance M_ret : MRet M := @ret.
#[export] Instance M_bind : MBind M := λ A B k m, bind m k.

Definition result {A} (m : M A) (w : World) : Outcome A := fst (m w).
Definition after {A} (m : M A) (w : World) : World := snd (m w).

Definition console_error (label : string) : M unit := effect (with_console label).
Definition console_log (label : string) : M unit := effect (with_console label).
Definition Alert_alert (title message : string) : M unit := effect (with_alert title message).

(** ** AsyncStorage

    The key-value store of the device.  Whether a call resolves or rejects
    is the environment's choice; a call that rejects leaves the contents as
    they were. *)

Inductive io : Type :=
| Resolves
| Rejects (e : JS.thrown).

Definition settle {A} (o : io) (a : A) (f : World → World) : M A :=
  λ w, match o with
       | Resolves => (Returned a, f w)
       | Rejects e => (Threw e, w)
       end.

Definition AsyncStorage_getItem (o : io) (key : string) : M (option string) :=
  λ w, settle o (disk w !! key) id (with_request (GetItem key) w).

Definition AsyncStorage_setItem (o : io) (key value : string) : M unit :=
  λ w, settle o tt (with_disk (<[key := value]> (disk w))) (with_request (SetItem key value) w).

Definition AsyncStorage_removeItem (o : io) (key : string) : M unit :=
  λ w, settle o tt (with_disk (delete key (disk w))) (with_request (RemoveItem key) w).

(** ** utils/storage.ts *)

Definition AUTH_USER_KEY : string := "AUTH_USER".

Section storage_ts.
Context `{JsonRuntime}.

(** [JSON.parse(text)], which throws where the text is not JSON. *)
Definition JSON_parse_call (text : string) : M JS.value :=
  match JSON_parse text with
  | Some v => mret v
  | None => throw (JS.ErrorObject "SyntaxError")
  end.

Definition saveUserToStorage (o : io) (user : User.t) : M unit :=
  try_catch
    (let userData := JSON_stringify (User.to_value user) in
     AsyncStorage_setItem o AUTH_USER_KEY userData)
    (λ error, console_error "Failed to save user to storage:").

Definition loadUserFromStorage (o : io) : M JS.value :=
  try_catch
    (userData ← AsyncStorage_getItem o AUTH_USER_KEY;
     match userData with
     | Some text => if JS.not_str text then mret JS.Null else JSON_parse_call text
     | None => mret JS.Null
     end)
    (λ error, console_error "Failed to load user from storage:";; mret JS.Null).

Definition removeUserFromStorage (o : io) : M unit :=
  try_catch
    (AsyncStorage_removeItem o AUTH_USER_KEY)
    (λ error, console_error "Failed to remove user from storage:").

Definition clearAuthStorage (o : io) : M unit :=
  try_catch
    (removeUserFromStorage o)
    (λ error, console_error "Failed to clear auth storage:").

End storage_ts.

(** ** context/AuthContext.tsx *)

Definition initialAuthState : AuthState.t :=
  {| AuthState.user := JS.Null;
     AuthState.isLoading := false;
     AuthState.isAuthenticated := false;
     AuthState.isInitializing := true |}.

(** [{ ...prev, isLoading: b }] *)
Definition prev_isLoading (b : bool) (prev : AuthState.t) : AuthState.t :=
  {| AuthState.user := AuthState.user prev;
     AuthState.isLoading := b;
     AuthState.isAuthenticated := AuthState.isAuthenticated prev;
     AuthState.isInitializing := AuthState.isInitializing prev |}.

(** [{ ...prev, isInitializing: b }] *)
Definition prev_isInitializing (b : bool) (prev : AuthState.t) : AuthState.t :=
  {| AuthState.user := AuthState.user prev;
     AuthState.isLoading := AuthState.isLoading prev;
     AuthState.isAuthenticated := AuthState.isAuthenticated prev;
     AuthState.isInitializing := b |}.

(** [setAuthState(updater)]; [setAuthState(value)] is the constant updater. *)
Definition setAuthState (updater : AuthState.t → AuthState.t) : M unit :=
  effect (λ w, with_authState (updater (authState w)) w).

(** [error instanceof Error ? error.message : fallback] *)
Definition message_of (error : JS.thrown) (fallback : string) : string :=
  match error with
  | JS.ErrorObject message => message
  | JS.NonError => fallback
  end.

Section AuthContext_tsx.
Context `{JsonRuntime}.

(** The effect that runs once when the provider mounts; [o] settles the
    read of the stored user. *)
Definition initializeAuth (o : io) : M unit :=
  try_catch
    (persistedUser ← loadUserFromStorage o;
     if JS.truthy persistedUser then
       setAuthState (λ _, {| AuthState.user := persistedUser;
                             AuthState.isLoading := false;
                             AuthState.isAuthenticated := true;
                             AuthState.isInitializing := false |})
     else
       setAuthState (prev_isInitializing false))
    (λ error,
       console_error "Failed to initialize auth:";;
       setAuthState (prev_isInitializing false)).

(** [now] is what [Date.now()] reads once the simulated network delay has
    elapsed; [o] settles the write of the new user. *)
Definition login (now : Z) (o : io) (credentials : LoginCredentials.t) : M AuthResponse.t :=
  try_catch
    (setAuthState (prev_isLoading true);;
     throw_if (JS.not_str (LoginCredentials.email credentials)
               || JS.not_str (LoginCredentials.password credentials))
       "Email and password are required";;
     throw_if (negb (JS.includes (LoginCredentials.email credentials) "@"))
       "Please enter a valid email";;
     (* await new Promise(resolve => setTimeout(resolve, 1000)) *)
     let mockUser :=
       {| User.id := JS.toString now;
          User.email := LoginCredentials.email credentials;
          User.name := hd "" (JS.split (LoginCredentials.email credentials) "@"%char) |} in
     setAuthState (λ _, {| AuthState.user := User.to_value mockUser;
                           AuthState.isLoading := false;
                           AuthState.isAuthenticated := true;
                           AuthState.isInitializing := false |});;
     saveUserToStorage o mockUser;;
     mret {| AuthResponse.success := true;
             AuthResponse.user := Some mockUser;
             AuthResponse.error := None |})
    (λ error,
       let errorMessage := message_of error "Login failed" in
       setAuthState (prev_isLoading false);;
       Alert_alert "Login Error" errorMessage;;
       mret {| AuthResponse.success := false;
               AuthResponse.user := None;
               AuthResponse.error := Some errorMessage |}).

Definition signup (now : Z) (o : io) (credentials : SignupCredentials.t) : M AuthResponse.t :=
  try_catch
    (setAuthState (prev_isLoading true);;
     throw_if (JS.not_str (SignupCredentials.email credentials)
               || JS.not_str (SignupCredentials.password credentials)
               || JS.not_str (SignupCredentials.name credentials))
       "All fields are required";;
     throw_if (negb (JS.includes (SignupCredentials.email credentials) "@"))
       "Please enter a valid email";;
     throw_if (String.length (SignupCredentials.password credentials) <? 6)%nat
       "Password must be at least 6 characters";;
     (* await new Promise(resolve => setTimeout(resolve, 1000)) *)
     let mockUser :=
       {| User.id := JS.toString now;
          User.email := SignupCredentials.email credentials;
          User.name := SignupCredentials.name credentials |} in
     setAuthState (λ _, {| AuthState.user := User.to_value mockUser;
                           AuthState.isLoading := false;
                           AuthState.isAuthenticated := true;
                           AuthState.isInitializing := false |});;
     saveUserToStorage o mockUser;;
     mret {| AuthResponse.success := true;
             AuthResponse.user := Some mockUser;
             AuthResponse.error := None |})
    (λ error,
       let errorMessage := message_of error "Signup failed" in
       setAuthState (prev_isLoading false);;
       Alert_alert "Signup Error" errorMessage;;
       mret {| AuthResponse.success := false;
               AuthResponse.user := None;
               AuthResponse.error := Some errorMessage |}).

(** [o] settles the removal of the stored user. *)
Definition logout (o : io) : M unit :=
  clearAuthStorage o;;
  setAuthState (λ _, {| AuthState.user := JS.Null;
                        AuthState.isLoading := false;
                        AuthState.isAuthenticated := false;
                        AuthState.isInitializing := false |}).

End AuthContext_tsx.

(** ** context/ThemeContext.tsx *)

Definition THEME_STORAGE_KEY : string := "@app_theme".

(** A [ThemeName] is the string it is written as. *)
Definition ThemeName_literal (t : ThemeName) : string :=
  match t with
  | light => "light"
  | dark => "dark"
  end.

Definition setTheme (t : ThemeName) : M unit := effect (with_theme t).
Definition setIsLoading (b : bool) : M unit := effect (with_themeIsLoading b).

(** The effect that runs once when the provider mounts. *)
Definition loadTheme (o : io) : M unit :=
  try_finally
    (try_catch
       (savedTheme ← AsyncStorage_getItem o THEME_STORAGE_KEY;
        match savedTheme with
        | Some text =>
            if negb (JS.not_str text) && (String.eqb text "light" || String.eqb text "dark")
            then setTheme (if String.eqb text "light" then light else dark)
            else mret tt
        | None => mret tt
        end)
       (λ error, console_log "Error loading theme:"))
    (setIsLoading false).

Definition saveTheme (o : io) (newTheme : ThemeName) : M unit :=
  try_catch
    (AsyncStorage_setItem o THEME_STORAGE_KEY (ThemeName_literal newTheme))
    (λ error, console_log "Error saving theme:").

(** [toggleTheme] is a closure of one render of the provider: [rendered] is
    the value of [theme] in that render.  The write is started and not
    awaited. *)
Definition toggleTheme (rendered : ThemeName) (o : io) : M unit :=
  let newTheme := match rendered with light => dark | dark => light end in
  setTheme newTheme;;
  saveTheme o newTheme.

(** [onPress={toggleTheme}] in components/ui/ThemeToggle.tsx: a press calls
    the closure of the render that is on screen, which shows the current
    state. *)
Definition ThemeToggle_onPress (o : io) : M unit :=
  λ w, toggleTheme (theme w) o w.

(** ** The application at start-up *)

Definition initialWorld (stored : gmap string string) : World :=
  {| authState := initialAuthState; authTrace := [];
     theme := light; themeIsLoading := true;
     disk := stored; requests := []; alerts := []; console := [] |}.

(** ** A reference JSON runtime

    A reader and a writer for a fragment of JSON, to run the stores on
    concrete inputs.  The fragment: [null], [true], [false]; integers of
    magnitude at most 2^53 written without fraction or exponent; strings
    with the two-character escapes and the escape of a code below 256 by
    four hexadecimal digits; arrays; objects.  On a text of the fragment
    [parse] answers what [JSON.parse] answers; any other text is refused.
    [stringify] writes values whose numbers are such integers as
    [JSON.stringify] does.  An object keeps its keys in the order they were
    written (no key of this application is an array index, which
    JavaScript would move to the front). *)

Module ReferenceJson.

Definition quote : ascii := ascii_of_nat 34.
Definition backslash : ascii := ascii_of_nat 92.

Definition is_ws (c : ascii) : bool :=
  let n := nat_of_ascii c in
  (n =? 32)%nat || (n =? 9)%nat || (n =? 10)%nat || (n =? 13)%nat.

Fixpoint skip_ws (s : string) : string :=
  match s with
  | String c rest => if is_ws c then skip_ws rest else s
  | EmptyString => s
  end.

(** [strip p s]: [s] without its prefix [p]. *)
Fixpoint strip (p s : string) : option string :=
  match p, s with
  | EmptyString, _ => Some s
  | String a p', String b s' => if Ascii.eqb a b then strip p' s' else None
  | String _ _, EmptyString => None
  end.

Definition digit_of (c : ascii) : option Z :=
  let n := nat_of_ascii c in
  if ((48 <=? n) && (n <=? 57))%nat then Some (Z.of_nat n - 48)%Z else None.

Definition hex_of (c : ascii) : option nat :=
  let n := nat_of_ascii c in
  if ((48 <=? n) && (n <=? 57))%nat then Some (n - 48)%nat
  else if ((65 <=? n) && (n <=? 70))%nat then Some (n - 55)%nat
  else if ((97 <=? n) && (n <=? 102))%nat then Some (n - 87)%nat
  else None.

(** The digits that continue a number whose value so far is [acc]. *)
Fixpoint more_digits (acc : Z) (s : string) : Z * string :=
  match s with
  | String c rest =>
      match digit_of c with
      | Some d => more_digits (10 * acc + d)%Z rest
      | None => (acc, s)
      end
  | EmptyString => (acc, s)
  end.

(** An unsigned integer: [0], or a digit from 1 to 9 and more digits. *)
Definition natural (s : string) : option (Z * string) :=
  match s with
  | String c rest =>
      match digit_of c with
      | Some 0%Z => Some (0%Z, rest)
      | Some d => Some (more_digits d rest)
      | None => None
      end
  | EmptyString => None
  end.

Definition integer (s : string) : option (Z * string) :=
  match s with
  | String "-" rest =>
      match natural rest with
      | Some (n, rest1) => Some ((- n)%Z, rest1)
      | None => None
      end
  | _ => natural s
  end.

Definition number (s : string) : option (JS.value * string) :=
  match integer s with
  | Some (n, rest) =>
      if (Z.abs n <=? 2 ^ 53)%Z
      then Some (JS.Num (JS.Finite (inject_Z n)), rest)
      else None
  | None => None
  end.

Definition unescape (c : ascii) : option ascii :=
  if Ascii.eqb c quote then Some quote
  else if Ascii.eqb c backslash then Some backslash
  else if Ascii.eqb c "/" then Some "/"%char
  else if Ascii.eqb c "b" then Some (ascii_of_nat 8)
  else if Ascii.eqb c "f" then Some (ascii_of_nat 12)
  else if Ascii.eqb c "n" then Some (ascii_of_nat 10)
  else if Ascii.eqb c "r" then Some (ascii_of_nat 13)
  else if Ascii.eqb c "t" then Some (ascii_of_nat 9)
  else None.

Definition cons_char (c : ascii) (r : option (string * string)) : option (string * string) :=
  match r with
  | Some (body, rest) => Some (String c body, rest)
  | None => None
  end.

(** The characters of a string literal after its opening quote, and the
    text after its closing quote. *)
Fixpoint string_body (s : string) : option (string * string) :=
  match s with
  | EmptyString => None
  | String c rest =>
      if Ascii.eqb c quote then Some (EmptyString, rest)
      else if Ascii.eqb c backslash then
        match rest with
        | String "u" (String "0" (String "0" (String h (String l rest1)))) =>
            match hex_of h, hex_of l with
            | Some a, Some b => cons_char (ascii_of_nat (16 * a + b)) (string_body rest1)
            | _, _ => None
            end
        | String e rest1 =>
            match unescape e with
            | Some c1 => cons_char c1 (string_body rest1)
            | None => None
            end
        | EmptyString => None
        end
      else if (nat_of_ascii c <? 32)%nat then None
      else cons_char c (string_body rest)
  end.

Definition string_literal (s : string) : option (string * string) :=
  match s with
  | String c rest => if Ascii.eqb c quote then string_body rest else None
  | EmptyString => None
  end.

(** [o[k] = v] while an object is read: a repeated key keeps its place and
    takes the later value. *)
Fixpoint set_field (k : string) (v : JS.value) (fields : list (string * JS.value))
  : list (string * JS.value) :=
  match fields with
  | [] => [(k, v)]
  | (k1, v1) :: rest =>
      if String.eqb k k1 then (k, v) :: rest else (k1, v1) :: set_field k v rest
  end.

Fixpoint value (fuel : nat) (s : string) : option (JS.value * string) :=
  match fuel with
  | O => None
  | S fuel1 =>
      match s with
      | String "n" _ => rest ← strip "null" s; Some (JS.Null, rest)
      | String "t" _ => rest ← strip "true" s; Some (JS.Bool true, rest)
      | String "f" _ => rest ← strip "false" s; Some (JS.Bool false, rest)
      | String "[" rest =>
          match skip_ws rest with
          | String "]" rest1 => Some (JS.Arr [], rest1)
          | items =>
              '(v, rest1) ← value fuel1 items;
              '(vs, rest2) ← elements fuel1 (skip_ws rest1);
              Some (JS.Arr (v :: vs), rest2)
          end
      | String "{" rest =>
          match skip_ws rest with
          | String "}" rest1 => Some (JS.Obj [], rest1)
          | fields =>
              '(k, rest1) ← string_literal fields;
              rest2 ← strip ":" (skip_ws rest1);
              '(v, rest3) ← value fuel1 (skip_ws rest2);
              members fuel1 [(k, v)] (skip_ws rest3)
          end
      | String c _ =>
          if Ascii.eqb c quote
          then '(body, rest) ← string_literal s; Some (JS.Str body, rest)
          else number s
      | EmptyString => None
      end
  end
with elements (fuel : nat) (s : string) : option (list JS.value * string) :=
  match fuel with
  | O => None
  | S fuel1 =>
      match s with
      | String "]" rest => Some ([], rest)
      | String "," rest =>
          '(v, rest1) ← value fuel1 (skip_ws rest);
          '(vs, rest2) ← elements fuel1 (skip_ws rest1);
          Some (v :: vs, rest2)
      | _ => None
      end
  end
with members (fuel : nat) (seen : list (string * JS.value)) (s : string)
  : option (JS.value * string) :=
  match fuel with
  | O => None
  | S fuel1 =>
      match s with
      | String "}" rest => Some (JS.Obj seen, rest)
      | String "," rest =>
          '(k, rest1) ← string_literal (skip_ws rest);
          rest2 ← strip ":" (skip_ws rest1);
          '(v, rest3) ← value fuel1 (skip_ws rest2);
          members fuel1 (set_field k v seen) (skip_ws rest3)
      | _ => None
      end
  end.

Definition parse (text : string) : option JS.value :=
  match value (2 * String.length text + 2) (skip_ws text) with
  | Some (v, rest) =>
      match skip_ws rest with
      | EmptyString => Some v
      | String _ _ => None
      end
  | None => None
  end.

Definition hex_digit (n : nat) : ascii :=
  if (n <? 10)%nat then ascii_of_nat (48 + n) else ascii_of_nat (87 + n).

Definition escape (c : ascii) : string :=
  let n := nat_of_ascii c in
  if Ascii.eqb c quote then String backslash (String quote EmptyString)
  else if Ascii.eqb c backslash then String backslash (String backslash EmptyString)
  else if (n =? 8)%nat then String backslash "b"
  else if (n =? 12)%nat then String backslash "f"
  else if (n =? 10)%nat then String backslash "n"
  else if (n =? 13)%nat then String backslash "r"
  else if (n =? 9)%nat then String backslash "t"
  else if (n <? 32)%nat then
    String backslash
      ("u00" +:+ String (hex_digit (n / 16)) (String (hex_digit (n mod 16)) EmptyString))
  else String c EmptyString.

Fixpoint escape_all (s : string) : string :=
  match s with
  | EmptyString => EmptyString
  | String c rest => escape c +:+ escape_all rest
  end.

Definition quoted (s : string) : string :=
  String quote (escape_all s +:+ String quote EmptyString).

Fixpoint join (pieces : list string) : string :=
  match pieces with
  | [] => EmptyString
  | [piece] => piece
  | piece :: rest => piece +:+ "," +:+ join rest
  end.

Fixpoint stringify (v : JS.value) : string :=
  match v with
  | JS.Null => "null"
  | JS.Bool true => "true"
  | JS.Bool false => "false"
  | JS.Num (JS.Finite q) =>
      if Pos.eqb (Qden q) 1 then pretty (Qnum q) else "null"
  | JS.Num _ => "null"
  | JS.Str s => quoted s
  | JS.Arr items => "[" +:+ join (List.map stringify items) +:+ "]"
  | JS.Obj fields =>
      "{" +:+ join (List.map (λ kv, match kv with
                                    | (k, v1) => quoted k +:+ ":" +:+ stringify v1
                                    end) fields) +:+ "}"
  end.

Definition runtime : JsonRuntime :=
  {| JSON_parse := parse; JSON_stringify := stringify; JSON_parse_empty := eq_refl |}.

End ReferenceJson.

(** ** screens/SignupScreen.tsx: the form validator

    The screen checks the form before it calls [signup]; it is the other
    place of the repository where the rules on a name, an email and a
    password are written down. *)

Module SignupScreen.

(** The white space [trim] removes, among the codes below 256. *)
Definition is_space (c : ascii) : bool :=
  let n := nat_of_ascii c in
  ((9 <=? n) && (n <=? 13))%nat || (n =? 32)%nat || (n =? 160)%nat.

Fixpoint trimStart (s : string) : string :=
  match s with
  | String c rest => if is_space c then trimStart rest else s
  | EmptyString => s
  end.

Fixpoint trimEnd (s : string) : string :=
  match s with
  | EmptyString => EmptyString
  | String c rest =>
      match trimEnd rest with
      | EmptyString => if is_space c then EmptyString else String c EmptyString
      | kept => String c kept
      end
  end.

(** [s.trim()] *)
Definition trim (s : string) : string := trimEnd (trimStart s).

Record Errors : Type := {
  name : option string;
  email : option string;
  password : option string
}.

(** The object [newErrors] that [validateForm] fills in. *)
Definition newErrors (name email password : string) : Errors :=
  {| SignupScreen.name :=
       if JS.not_str (trim name) then Some "Name is required"
       else if (String.length (trim name) <? 2)%nat
       then Some "Name must be at least 2 characters"
       else None;
     SignupScreen.email :=
       if JS.not_str (trim email) then Some "Email is required"
       else if negb (JS.includes email "@") || negb (JS.includes email ".")
       then Some "Please enter a valid email address"
       else if (String.length (trim email) <? 5)%nat
       then Some "Please enter a valid email address"
       else None;
     SignupScreen.password :=
       if JS.not_str (trim password) then Some "Password is required"
       else if (String.length password <? 6)%nat
       then Some "Password must be at least 6 characters"
       else None |}.

(** [Object.keys(newErrors).length === 0] *)
Definition validateForm (name email password : string) : bool :=
  match newErrors name email password with
  | {| SignupScreen.name := None; SignupScreen.email := None;
       SignupScreen.password := None |} => true
  | _ => false
  end.

(** [handleSignup]: the form is checked first, and [signup] is called with
    the trimmed name and email only when it passes.  The value returned is
    the object given to [setErrors]. *)
Definition handleSignup `{JsonRuntime} (now : Z) (o : io) (name email password : string)
  : M Errors :=
  if negb (validateForm name email password)
  then mret (newErrors name email password)
  else
    response ← signup now o {| SignupCredentials.name := trim name;
                               SignupCredentials.email := trim email;
                               SignupCredentials.password := password |};
    (if negb (AuthResponse.success response)
     then console_log "Signup failed:"
     else mret tt);;
    mret (newErrors name email password).

End SignupScreen.

(** ** The session store seen from outside *)

(** The invariant of the session state: [isAuthenticated] says whether a
    user is present. *)
Definition session_invariant (s : AuthState.t) : Prop :=
  AuthState.isAuthenticated s = negb (JS.is_null (AuthState.user s)).

(** The state after a restore that found [v], and after a login as [v]. *)
Definition signed_in (v : JS.value) : AuthState.t :=
  {| AuthState.user := v;
     AuthState.isLoading := false;
     AuthState.isAuthenticated := true;
     AuthState.isInitializing := false |}.

(** The state [logout] leaves. *)
Definition signed_out : AuthState.t :=
  {| AuthState.user := JS.Null;
     AuthState.isLoading := false;
     AuthState.isAuthenticated := false;
     AuthState.isInitializing := false |}.

Definition failure (message : string) : AuthResponse.t :=
  {| AuthResponse.success := false;
     AuthResponse.user := None;
     AuthResponse.error := Some message |}.

Definition success (u : User.t) : AuthResponse.t :=
  {| AuthResponse.success := true;
     AuthResponse.user := Some u;
     AuthResponse.error := None |}.

(** What can happen to a session store, with what the environment decides
    each time. *)
Inductive Operation : Type :=
| Restore (o : io)
| Login (now : Z) (o : io) (credentials : LoginCredentials.t)
| Signup (now : Z) (o : io) (credentials : SignupCredentials.t)
| Logout (o : io).

Section operations.
Context `{JsonRuntime}.

Definition perform (op : Operation) (w : World) : World :=
  match op with
  | Restore o => after (initializeAuth o) w
  | Login now o credentials => after (login now o credentials) w
  | Signup now o credentials => after (signup now o credentials) w
  | Logout o => after (logout o) w
  end.

Definition perform_all (ops : list Operation) (w : World) : World :=
  foldl (λ w op, perform op w) w ops.

(** A restart of the application over what storage holds in [w]. *)
Definition restart (w : World) : World := initialWorld (disk w).

(** *** A call of [login] as the scheduler sees it

    [login] gives up control once, at the timer.  [login_begin] is the call
    up to there: [Some] response when it has already failed, [None] when it
    is waiting.  [login_resume] is the rest, run when the timer fires. *)

Definition login_begin (credentials : LoginCredentials.t) : M (option AuthResponse.t) :=
  try_catch
    (setAuthState (prev_isLoading true);;
     throw_if (JS.not_str (LoginCredentials.email credentials)
               || JS.not_str (LoginCredentials.password credentials))
       "Email and password are required";;
     throw_if (negb (JS.includes (LoginCredentials.email credentials) "@"))
       "Please enter a valid email";;
     mret None)
    (λ error,
       let errorMessage := message_of error "Login failed" in
       setAuthState (prev_isLoading false);;
       Alert_alert "Login Error" errorMessage;;
       mret (Some {| AuthResponse.success := false;
                     AuthResponse.user := None;
                     AuthResponse.error := Some errorMessage |})).

Definition login_resume (now : Z) (o : io) (credentials : LoginCredentials.t)
  : M AuthResponse.t :=
  try_catch
    (let mockUser :=
       {| User.id := JS.toString now;
          User.email := LoginCredentials.email credentials;
          User.name := hd "" (JS.split (LoginCredentials.email credentials) "@"%char) |} in
     setAuthState (λ _, {| AuthState.user := User.to_value mockUser;
                           AuthState.isLoading := false;
                           AuthState.isAuthenticated := true;
                           AuthState.isInitializing := false |});;
     saveUserToStorage o mockUser;;
     mret {| AuthResponse.success := true;
             AuthResponse.user := Some mockUser;
             AuthResponse.error := None |})
    (λ error,
       let errorMessage := message_of error "Login failed" in
       setAuthState (prev_isLoading false);;
       Alert_alert "Login Error" errorMessage;;
       mret {| AuthResponse.success := false;
               AuthResponse.user := None;
               AuthResponse.error := Some errorMessage |}).

End operations.

(** ** Properties of worlds kept by computations *)

(** [stable P m]: whatever [m] does, and whether it returns or throws, a
    world in [P] stays in [P]. *)
Definition stable {A} (P : World → Prop) (m : M A) : Prop :=
  ∀ w, P w → P (after m w).

(** The invariant holds now and held each time the state was set. *)
Definition always_invariant (w : World) : Prop :=
  session_invariant (authState w) ∧ Forall session_invariant (authTrace w).

(** An updater given to [setAuthState] that keeps the invariant. *)
Definition keeps_invariant (updater : AuthState.t → AuthState.t) : Prop :=
  ∀ s, session_invariant s → session_invariant (updater s).

(** ** What a call of [login] or [signup] comes to *)

(** The message of the first check of [login] that the credentials fail. *)
Definition login_violation (credentials : LoginCredentials.t) : option string :=
  if JS.not_str (LoginCredentials.email credentials)
     || JS.not_str (LoginCredentials.password credentials)
  then Some "Email and password are required"
  else if negb (JS.includes (LoginCredentials.email credentials) "@")
  then Some "Please enter a valid email"
  else None.

(** The message of the first check of [signup] that the credentials fail. *)
Definition signup_violation (credentials : SignupCredentials.t) : option string :=
  if JS.not_str (SignupCredentials.email credentials)
     || JS.not_str (SignupCredentials.password credentials)
     || JS.not_str (SignupCredentials.name credentials)
  then Some "All fields are required"
  else if negb (JS.includes (SignupCredentials.email credentials) "@")
  then Some "Please enter a valid email"
  else if (String.length (SignupCredentials.password credentials) <? 6)%nat
  then Some "Password must be at least 6 characters"
  else None.

(** [mockUser] in [login] and in [signup]. *)
Definition login_user (now : Z) (credentials : LoginCredentials.t) : User.t :=
  {| User.id := JS.toString now;
     User.email := LoginCredentials.email credentials;
     User.name := hd "" (JS.split (LoginCredentials.email credentials) "@"%char) |}.

Definition signup_user (now : Z) (credentials : SignupCredentials.t) : User.t :=
  {| User.id := JS.toString now;
     User.email := SignupCredentials.email credentials;
     User.name := SignupCredentials.name credentials |}.

(** The world after a call that failed with [message]: [isLoading] was set
    and reset, and the message was shown. *)
Definition rejected (title message : string) (w : World) : World :=
  with_alert title message
    (with_authState (prev_isLoading false (authState w))
       (with_authState (prev_isLoading true (authState w)) w)).

(** The world after [saveUserToStorage o u]. *)
Definition saved `{JsonRuntime} (o : io) (u : User.t) (w : World) : World :=
  let userData := JSON_stringify (User.to_value u) in
  match o with
  | Resolves =>
      with_disk (<[AUTH_USER_KEY := userData]> (disk w))
        (with_request (SetItem AUTH_USER_KEY userData) w)
  | Rejects _ =>
      with_console "Failed to save user to storage:"
        (with_request (SetItem AUTH_USER_KEY userData) w)
  end.

(** The world after a call that signed [u] in. *)
Definition accepted `{JsonRuntime} (o : io) (u : User.t) (w : World) : World :=
  saved o u
    (with_authState (signed_in (User.to_value u))
       (with_authState (prev_isLoading true (authState w)) w)).

(** ** What a restore and a logout come to *)

(** What [loadUserFromStorage o] returns over the stored contents. *)
Definition persisted_user `{JsonRuntime} (o : io) (stored : gmap string string) : JS.value :=
  match o with
  | Rejects _ => JS.Null
  | Resolves =>
      match stored !! AUTH_USER_KEY with
      | Some text =>
          if JS.not_str text then JS.Null
          else match JSON_parse text with
               | Some v => v
               | None => JS.Null
               end
      | None => JS.Null
      end
  end.

(** The state [initializeAuth] sets over the state [s] it finds. *)
Definition restored `{JsonRuntime} (o : io) (stored : gmap string string) (s : AuthState.t)
  : AuthState.t :=
  if JS.truthy (persisted_user o stored)
  then signed_in (persisted_user o stored)
  else prev_isInitializing false s.

(** The world after [clearAuthStorage o]. *)
Definition cleared (o : io) (w : World) : World :=
  match o with
  | Resolves =>
      with_disk (delete AUTH_USER_KEY (disk w)) (with_request (RemoveItem AUTH_USER_KEY) w)
  | Rejects _ =>
      with_console "Failed to remove user from storage:"
        (with_request (RemoveItem AUTH_USER_KEY) w)
  end.

(** The other mode. *)
Definition flipped (t : ThemeName) : ThemeName :=
  match t with
  | light => dark
  | dark => light
  end.

(** [only_io w w1]: from [w] to [w1] only the record of the calls to
    AsyncStorage and the console have changed. *)
Definition only_io (w w1 : World) : Prop :=
  authState w1 = authState w ∧ authTrace w1 = authTrace w ∧
  theme w1 = theme w ∧ themeIsLoading w1 = themeIsLoading w ∧
  disk w1 = disk w ∧ alerts w1 = alerts w.

(** ** screens/LoginScreen.tsx *)

Module LoginScreen.

Record Errors : Type := {
  email : option string;
  password : option string
}.

(** The object [newErrors] that [validateForm] fills in. *)
Definition newErrors (email password : string) : Errors :=
  {| LoginScreen.email :=
       if JS.not_str (SignupScreen.trim email) then Some "Email is required"
       else if negb (JS.includes email "@") || negb (JS.includes email ".")
       then Some "Please enter a valid email address"
       else None;
     LoginScreen.password :=
       if JS.not_str (SignupScreen.trim password) then Some "Password is required"
       else if (String.length password <? 6)%nat
       then Some "Password must be at least 6 characters"
       else None |}.

(** [Object.keys(newErrors).length === 0] *)
Definition validateForm (email password : string) : bool :=
  match newErrors email password with
  | {| LoginScreen.email := None; LoginScreen.password := None |} => true
  | _ => false
  end.

(** [handleLogin]; the value returned is the object given to [setErrors]. *)
Definition handleLogin `{JsonRuntime} (now : Z) (o : io) (email password : string)
  : M Errors :=
  if negb (validateForm email password)
  then mret (newErrors email password)
  else
    response ← login now o {| LoginCredentials.email := SignupScreen.trim email;
                              LoginCredentials.password := password |};
    (if negb (AuthResponse.success response)
     then console_log "Login failed:"
     else mret tt);;
    mret (newErrors email password).

End LoginScreen.

(** ** navigation/AppNavigation.tsx, screens/HomeScreen.tsx and App.tsx:
    what is on screen *)

Inductive Navigator : Type :=
| LoadingScreen
| AuthNavigator
| MainNavigator.

(** [AppNavigation] chooses by the two flags of the session state. *)
Definition AppNavigation (s : AuthState.t) : Navigator :=
  if AuthState.isInitializing s then LoadingScreen
  else if AuthState.isAuthenticated s then MainNavigator
  else AuthNavigator.

Inductive HomeView : Type :=
| LoggingOut
| NoUserData
| Welcome (user : JS.value).

(** What [HomeScreen] renders: the spinner while [isLoading], the notice
    when [!user], the home page otherwise. *)
Definition HomeScreen (s : AuthState.t) : HomeView :=
  if AuthState.isLoading s then LoggingOut
  else if negb (JS.truthy (AuthState.user s)) then NoUserData
  else Welcome (AuthState.user s).

Inductive AppView : Type :=
| LoadingFonts
| LoadingTheme
| Navigation (n : Navigator).

(** [App] and [AppWithTheme]: the fonts, then the theme, then the
    navigation inside the [AuthProvider]. *)
Definition App (fontsLoaded : bool) (w : World) : AppView :=
  if negb fontsLoaded then LoadingFonts
  else if themeIsLoading w then LoadingTheme
  else Navigation (AppNavigation (authState w)).

(** The two effects at start-up.  [AppWithTheme] renders the
    [AuthProvider] only once the theme is loaded, so [loadTheme] has ended
    when [initializeAuth] starts. *)
Definition startup `{JsonRuntime} (o_theme o_auth : io) : M unit :=
  loadTheme o_theme;;
  initializeAuth o_auth.

(** [isAuthenticated] says whether [user] is truthy: what [HomeScreen]
    relies on when the navigator shows it. *)
Definition user_invariant (s : AuthState.t) : Prop :=
  AuthState.isAuthenticated s = JS.truthy (AuthState.user s).

(** A runtime reads back the record it has written for [u]. *)
Definition reads_back `{JsonRuntime} (u : User.t) : Prop :=
  JSON_parse (JSON_stringify (User.to_value u)) = Some (User.to_value u).

(** The same session and preference state, and the same stored contents. *)
Definition same_state (w1 w2 : World) : Prop :=
  authState w1 = authState w2 ∧ theme w1 = theme w2 ∧
  themeIsLoading w1 = themeIsLoading w2 ∧ disk w1 = disk w2 ∧ alerts w1 = alerts w2.

(** A call of [login] or of [signup], and the title of the alert it shows
    when it fails. *)
Definition sign_in_call `{JsonRuntime} (now : Z) (o : io)
    (credentials : LoginCredentials.t + SignupCredentials.t) : M AuthResponse.t :=
  match credentials with
  | inl c => login now o c
  | inr c => signup now o c
  end.

Definition alert_title (credentials : LoginCredentials.t + SignupCredentials.t) : string :=
  match credentials with
  | inl _ => "Login Error"
  | inr _ => "Signup Error"
  end.

(** ** Sample inputs *)

Module Sample.

Definition a_at_b : LoginCredentials.t :=
  {| LoginCredentials.email := "a@b.com"; LoginCredentials.password := "x" |}.

Definition c_at_d : LoginCredentials.t :=
  {| LoginCredentials.email := "c@d.com"; LoginCredentials.password := "y" |}.

Definition no_email : LoginCredentials.t :=
  {| LoginCredentials.email := ""; LoginCredentials.password := "x" |}.

Definition jo : SignupCredentials.t :=
  {| SignupCredentials.name := "Jo";
     SignupCredentials.email := "jo@x.com";
     SignupCredentials.password := "abcdef" |}.

Definition jo_short_password : SignupCredentials.t :=
  {| SignupCredentials.name := "Jo";
     SignupCredentials.email := "jo@x.com";
     SignupCredentials.password := "abc" |}.

Definition jo_no_password : SignupCredentials.t :=
  {| SignupCredentials.name := "Jo";
     SignupCredentials.email := "jo@x.com";
     SignupCredentials.password := "" |}.

Definition one_letter_name : SignupCredentials.t :=
  {| SignupCredentials.name := "A";
     SignupCredentials.email := "a@b.com";
     SignupCredentials.password := "abcdef" |}.

Definition blank_name : SignupCredentials.t :=
  {| SignupCredentials.name := " ";
     SignupCredentials.email := "a@b.com";
     SignupCredentials.password := "abcdef" |}.

Definition no_name : SignupCredentials.t :=
  {| SignupCredentials.name := "";
     SignupCredentials.email := "a@b.com";
     SignupCredentials.password := "abcdef" |}.

(** A reading of the clock, in milliseconds. *)
Definition clock : Z := 1700000000000.

(** A rejection by AsyncStorage. *)
Definition io_error : JS.thrown := JS.ErrorObject "storage unavailable".

(** Storage that holds [text] under the auth key. *)
Definition holding (text : string) : gmap string string := {[ AUTH_USER_KEY := text ]}.

(** The JSON text of the string [x]: an [x] between two quotes. *)
Definition text_of_x : string := ReferenceJson.quoted "x".

(** A user as [login] makes them. *)
Definition ann : User.t :=
  {| User.id := "1700000000000"; User.email := "ann@b.com"; User.name := "ann" |}.

(** What a form may hold: spaces around the email and the name. *)
Definition typed_email : string := " ann@b.com ".
Definition typed_name : string := " Ann ".
Definition typed_password : string := "secret1".

End Sample.

(** * Properties *)

(** ** Rules for [stable] *)

Section stable_rules.
Context {A B : Type} (P : World → Prop).

Lemma stable_ret (a : A) : stable P (mret a).
Proof. intros w Hw. exact Hw. Qed.

Lemma stable_throw (e : JS.thrown) : stable P (@throw A e).
Proof. intros w Hw. exact Hw. Qed.

Lemma stable_bind (m : M A) (k : A → M B) :
  stable P m → (∀ a, stable P (k a)) → stable P (m ≫= k).
Proof.
  intros Hm Hk w Hw. specialize (Hm w Hw).
  unfold after, mbind, M_bind, bind in *.
  destruct (m w) as [[a|e] w1]; simpl in *.
  - apply (Hk a w1 Hm).
  - exact Hm.
Qed.

Lemma stable_try_catch (body : M A) (handler : JS.thrown → M A) :
  stable P body → (∀ e, stable P (handler e)) → stable P (try_catch body handler).
Proof.
  intros Hb Hh w Hw. specialize (Hb w Hw).
  unfold after, try_catch in *.
  destruct (body w) as [[a|e] w1]; simpl in *.
  - exact Hb.
  - apply (Hh e w1 Hb).
Qed.

Lemma stable_try_finally (body : M A) (cleanup : M unit) :
  stable P body → stable P cleanup → stable P (try_finally body cleanup).
Proof.
  intros Hb Hc w Hw. specialize (Hb w Hw).
  unfold after, try_finally in *.
  destruct (body w) as [r w1]; simpl in *.
  specialize (Hc w1 Hb). unfold after in Hc.
  destruct (cleanup w1) as [[[]|e] w2]; exact Hc.
Qed.

Lemma stable_effect (f : World → World) :
  (∀ w, P w → P (f w)) → stable P (effect f).
Proof. intros Hf w Hw. apply Hf, Hw. Qed.

Lemma stable_settle (o : io) (a : A) (f : World → World) :
  (∀ w, P w → P (f w)) → stable P (settle o a f).
Proof. intros Hf w Hw. unfold after, settle. destruct o; simpl; auto. Qed.

End stable_rules.

Lemma stable_throw_if (P : World → Prop) (c : bool) (message : string) :
  stable P (throw_if c message).
Proof. destruct c; [apply stable_throw | apply stable_ret]. Qed.

Lemma stable_if {A} (P : World → Prop) (c : bool) (m1 m2 : M A) :
  stable P m1 → stable P m2 → stable P (if c then m1 else m2).
Proof. destruct c; auto. Qed.

Create HintDb stable discriminated.
#[local] Hint Resolve stable_ret stable_throw stable_bind stable_try_catch
  stable_try_finally stable_throw_if stable_if : stable.

(** ** The invariant of the session state *)

Lemma truthy_not_null (v : JS.value) : JS.truthy v = true → JS.is_null v = false.
Proof. destruct v; simpl; congruence. Qed.

Lemma null_user_invariant (loading initializing : bool) :
  session_invariant {| AuthState.user := JS.Null;
                       AuthState.isLoading := loading;
                       AuthState.isAuthenticated := false;
                       AuthState.isInitializing := initializing |}.
Proof. reflexivity. Qed.

Lemma signed_in_invariant (v : JS.value) :
  JS.truthy v = true → session_invariant (signed_in v).
Proof. intros Hv. unfold session_invariant. simpl. by rewrite truthy_not_null. Qed.

Lemma user_value_invariant (u : User.t) (loading initializing : bool) :
  session_invariant {| AuthState.user := User.to_value u;
                       AuthState.isLoading := loading;
                       AuthState.isAuthenticated := true;
                       AuthState.isInitializing := initializing |}.
Proof. reflexivity. Qed.

(** The three kinds of updater the provider passes to [setAuthState]. *)
Lemma keeps_prev_isLoading (b : bool) : keeps_invariant (prev_isLoading b).
Proof. intros s Hs. exact Hs. Qed.

Lemma keeps_prev_isInitializing (b : bool) : keeps_invariant (prev_isInitializing b).
Proof. intros s Hs. exact Hs. Qed.

Lemma keeps_constant (s : AuthState.t) :
  session_invariant s → keeps_invariant (λ _, s).
Proof. intros Hs _ _. exact Hs. Qed.

Lemma stable_setAuthState (updater : AuthState.t → AuthState.t) :
  keeps_invariant updater → stable always_invariant (setAuthState updater).
Proof.
  intros Hu w [Hnow Hpast]. split; simpl.
  - apply Hu, Hnow.
  - constructor; [apply Hu, Hnow | exact Hpast].
Qed.

(** Storage, the console and the alerts are not looked at by the invariant. *)
Lemma stable_getItem (o : io) (key : string) :
  stable always_invariant (AsyncStorage_getItem o key).
Proof. intros w Hw. unfold after, AsyncStorage_getItem, settle. by destruct o. Qed.

Lemma stable_setItem (o : io) (key value : string) :
  stable always_invariant (AsyncStorage_setItem o key value).
Proof. intros w Hw. unfold after, AsyncStorage_setItem, settle. by destruct o. Qed.

Lemma stable_removeItem (o : io) (key : string) :
  stable always_invariant (AsyncStorage_removeItem o key).
Proof. intros w Hw. unfold after, AsyncStorage_removeItem, settle. by destruct o. Qed.

Lemma stable_console_error (label : string) :
  stable always_invariant (console_error label).
Proof. apply stable_effect. by intros w Hw. Qed.

Lemma stable_console_log (label : string) : stable always_invariant (console_log label).
Proof. apply stable_effect. by intros w Hw. Qed.

Lemma stable_Alert_alert (title message : string) :
  stable always_invariant (Alert_alert title message).
Proof. apply stable_effect. by intros w Hw. Qed.

#[local] Hint Resolve stable_setAuthState stable_getItem stable_setItem
  stable_removeItem stable_console_error stable_console_log stable_Alert_alert
  keeps_prev_isLoading keeps_prev_isInitializing keeps_constant
  null_user_invariant user_value_invariant : stable.

Section invariant.
Context `{JsonRuntime}.

Lemma stable_JSON_parse_call (text : string) :
  stable always_invariant (JSON_parse_call text).
Proof. unfold JSON_parse_call. destruct (JSON_parse text); auto with stable. Qed.

Lemma stable_saveUserToStorage (o : io) (u : User.t) :
  stable always_invariant (saveUserToStorage o u).
Proof. unfold saveUserToStorage. auto with stable. Qed.

Lemma stable_loadUserFromStorage (o : io) :
  stable always_invariant (loadUserFromStorage o).
Proof.
  unfold loadUserFromStorage. apply stable_try_catch.
  - apply stable_bind; [auto with stable|].
    intros [text|]; [|auto with stable].
    apply stable_if; [auto with stable | apply stable_JSON_parse_call].
  - intros e. auto with stable.
Qed.

Lemma stable_clearAuthStorage (o : io) :
  stable always_invariant (clearAuthStorage o).
Proof. unfold clearAuthStorage, removeUserFromStorage. auto with stable. Qed.

#[local] Hint Resolve stable_saveUserToStorage stable_loadUserFromStorage
  stable_clearAuthStorage : stable.

Lemma stable_initializeAuth (o : io) : stable always_invariant (initializeAuth o).
Proof.
  unfold initializeAuth. apply stable_try_catch; [|auto with stable].
  apply stable_bind; [auto with stable|].
  intros persistedUser. destruct (JS.truthy persistedUser) eqn:Htruthy.
  - apply stable_setAuthState, keeps_constant, signed_in_invariant, Htruthy.
  - auto with stable.
Qed.

Lemma stable_login (now : Z) (o : io) (credentials : LoginCredentials.t) :
  stable always_invariant (login now o credentials).
Proof. unfold login. cbv zeta. auto 12 with stable. Qed.

(** So do the two halves of a call of [login] that waits at its timer,
    whatever runs in between. *)
Lemma stable_login_begin (credentials : LoginCredentials.t) :
  stable always_invariant (login_begin credentials).
Proof. unfold login_begin. cbv zeta. auto 12 with stable. Qed.

Lemma stable_login_resume (now : Z) (o : io) (credentials : LoginCredentials.t) :
  stable always_invariant (login_resume now o credentials).
Proof. unfold login_resume. cbv zeta. auto 12 with stable. Qed.

Lemma stable_signup (now : Z) (o : io) (credentials : SignupCredentials.t) :
  stable always_invariant (signup now o credentials).
Proof. unfold signup. cbv zeta. auto 14 with stable. Qed.

Lemma stable_logout (o : io) : stable always_invariant (logout o).
Proof. unfold logout. auto with stable. Qed.

Lemma perform_invariant (op : Operation) (w : World) :
  always_invariant w → always_invariant (perform op w).
Proof.
  destruct op; simpl.
  - apply stable_initializeAuth.
  - apply stable_login.
  - apply stable_signup.
  - apply stable_logout.
Qed.

(** C1. The invariant [isAuthenticated == (user is present)] holds in the
    initial state and is kept by every operation: after any sequence of
    restores, logins, signups and logouts, with any credentials, any reading
    of the clock and any outcome of the storage calls, [isAuthenticated] is
    true exactly when [user] is not null, and this was so each time the
    state was set on the way. *)
Theorem session_invariant_always (stored : gmap string string) (ops : list Operation) :
  session_invariant initialAuthState ∧
  session_invariant (authState (perform_all ops (initialWorld stored))) ∧
  Forall session_invariant (authTrace (perform_all ops (initialWorld stored))).
Proof.
  split; [apply null_user_invariant|].
  assert (Hall : ∀ w, always_invariant w → always_invariant (perform_all ops w)).
  { unfold perform_all. induction ops as [|op ops IH]; intros w Hw; simpl.
    - exact Hw.
    - apply IH, perform_invariant, Hw. }
  apply Hall. split; [apply null_user_invariant | constructor].
Qed.

End invariant.

(** ** Strings *)

Lemma not_str_true (s : string) : JS.not_str s = true ↔ s = "".
Proof. destruct s; simpl; split; congruence. Qed.

Lemma not_str_false (s : string) : JS.not_str s = false ↔ s ≠ "".
Proof. destruct s; simpl; split; congruence. Qed.

Lemma prefix_at (c : ascii) (s : string) :
  String.prefix "@" (String c s) = Ascii.eqb c "@".
Proof.
  cbn [String.prefix]. destruct (ascii_dec "@" c) as [<-|Hne].
  - by destruct s.
  - symmetry. apply Ascii.eqb_neq. congruence.
Qed.

Lemma includes_cons (c : ascii) (s : string) :
  JS.includes (String c s) "@" = Ascii.eqb c "@" || JS.includes s "@".
Proof.
  change (JS.includes (String c s) "@")
    with (String.prefix "@" (String c s) || JS.includes s "@").
  by rewrite prefix_at.
Qed.

Lemma split_cons_other (c : ascii) (s : string) :
  Ascii.eqb c "@" = false →
  hd "" (JS.split (String c s) "@") = String c (hd "" (JS.split s "@")).
Proof. intros Hc. cbn [JS.split]. rewrite Hc. by destruct (JS.split s "@"). Qed.

(** [s.split('@')[0]] is what stands before the first [@] of [s]. *)
Lemma split_hd_before_first (s : string) :
  JS.includes s "@" = true →
  ∃ rest, s = hd "" (JS.split s "@") +:+ "@" +:+ rest ∧
          JS.includes (hd "" (JS.split s "@")) "@" = false.
Proof.
  induction s as [|c s IH]; [discriminate|].
  rewrite includes_cons. destruct (Ascii.eqb c "@") eqn:Hc; simpl orb.
  - intros _. apply Ascii.eqb_eq in Hc as ->. exists s. split; reflexivity.
  - intros [rest [Hs Hno]]%IH. exists rest.
    rewrite split_cons_other by done. split.
    + change (String c s = String c (hd "" (JS.split s "@") +:+ "@" +:+ rest)).
      by rewrite <- Hs.
    + by rewrite includes_cons, Hc, Hno.
Qed.

(** ** What the operations compute *)

Section evaluation.
Context `{JsonRuntime}.

Lemma saveUserToStorage_run (o : io) (u : User.t) (w : World) :
  saveUserToStorage o u w = (Returned tt, saved o u w).
Proof. by destruct o. Qed.

(** [login] in one equation: the first failed check decides the message,
    and well-formed credentials sign the user in. *)
Lemma login_run (now : Z) (o : io) (credentials : LoginCredentials.t) (w : World) :
  login now o credentials w =
  match login_violation credentials with
  | Some message => (Returned (failure message), rejected "Login Error" message w)
  | None =>
      (Returned (success (login_user now credentials)),
       accepted o (login_user now credentials) w)
  end.
Proof.
  unfold login, login_violation, try_catch, mbind, M_bind, bind. cbv zeta.
  destruct (JS.not_str (LoginCredentials.email credentials)
            || JS.not_str (LoginCredentials.password credentials)); [reflexivity|].
  destruct (JS.includes (LoginCredentials.email credentials) "@"); [|reflexivity].
  by destruct o.
Qed.

Lemma signup_run (now : Z) (o : io) (credentials : SignupCredentials.t) (w : World) :
  signup now o credentials w =
  match signup_violation credentials with
  | Some message => (Returned (failure message), rejected "Signup Error" message w)
  | None =>
      (Returned (success (signup_user now credentials)),
       accepted o (signup_user now credentials) w)
  end.
Proof.
  unfold signup, signup_violation, try_catch, mbind, M_bind, bind. cbv zeta.
  destruct (JS.not_str (SignupCredentials.email credentials)
            || JS.not_str (SignupCredentials.password credentials)
            || JS.not_str (SignupCredentials.name credentials)); [reflexivity|].
  destruct (JS.includes (SignupCredentials.email credentials) "@"); [|reflexivity].
  destruct (String.length (SignupCredentials.password credentials) <? 6)%nat;
    [reflexivity|].
  by destruct o.
Qed.

(** A failed call touches nothing but [isLoading] and the alerts. *)
Lemma rejected_authState (title message : string) (w : World) :
  authState (rejected title message w) = prev_isLoading false (authState w).
Proof. reflexivity. Qed.

Lemma rejected_authTrace (title message : string) (w : World) :
  authTrace (rejected title message w) =
  [prev_isLoading false (authState w); prev_isLoading true (authState w)] ++ authTrace w.
Proof. reflexivity. Qed.

Lemma rejected_storage (title message : string) (w : World) :
  disk (rejected title message w) = disk w ∧
  requests (rejected title message w) = requests w.
Proof. by split. Qed.

Lemma accepted_authState (o : io) (u : User.t) (w : World) :
  authState (accepted o u w) = signed_in (User.to_value u).
Proof. by destruct o. Qed.

Lemma accepted_authTrace (o : io) (u : User.t) (w : World) :
  authTrace (accepted o u w) =
  [signed_in (User.to_value u); prev_isLoading true (authState w)] ++ authTrace w.
Proof. by destruct o. Qed.

End evaluation.

(** ** login and signup *)

Section login_signup.
Context `{JsonRuntime}.

(** C2, as the code has it.  For every login input whose email is empty,
    whose password is empty, or whose email has no [@], [login] returns
    [{ success: false }] with the message of the first failed check and
    writes nothing to storage; it does set [isLoading]: the state is set
    twice, to the state before the call with [isLoading] true and then with
    [isLoading] false, and [user], [isAuthenticated] and [isInitializing]
    are those of the state before the call throughout. *)
Theorem login_invalid_rejected
    (now : Z) (o : io) (credentials : LoginCredentials.t) (w : World) :
  LoginCredentials.email credentials = "" ∨
  LoginCredentials.password credentials = "" ∨
  JS.includes (LoginCredentials.email credentials) "@" = false →
  result (login now o credentials) w =
    Returned (failure
      (if JS.not_str (LoginCredentials.email credentials)
          || JS.not_str (LoginCredentials.password credentials)
       then "Email and password are required"
       else "Please enter a valid email")) ∧
  authTrace (after (login now o credentials) w) =
    [prev_isLoading false (authState w); prev_isLoading true (authState w)]
      ++ authTrace w ∧
  authState (after (login now o credentials) w) = prev_isLoading false (authState w) ∧
  disk (after (login now o credentials) w) = disk w ∧
  requests (after (login now o credentials) w) = requests w.
Proof.
  intros Hbad. unfold result, after. rewrite login_run. unfold login_violation.
  destruct (JS.not_str (LoginCredentials.email credentials)
            || JS.not_str (LoginCredentials.password credentials)) eqn:Hempty.
  { done. }
  apply orb_false_iff in Hempty as [He%not_str_false Hp%not_str_false].
  destruct Hbad as [?|[?|Hno]]; [done..|]. by rewrite Hno.
Qed.

(** C5. [login({ email: "a@b.com", password: "x" })] returns
    [{ success: true }] with a user whose email is ["a@b.com"] and whose
    name is ["a"]; and for every well-formed login input (a non-empty email
    that contains [@], a non-empty password), [login] returns
    [{ success: true }] with a user that carries the email of the input and
    whose name is the part of the email before its first [@], and the state
    it leaves has that user, [isAuthenticated] true and [isLoading] false. *)
Theorem login_well_formed (now : Z) (o : io) (w : World) :
  result (login now o Sample.a_at_b) w =
    Returned (success {| User.id := JS.toString now;
                         User.email := "a@b.com";
                         User.name := "a" |}) ∧
  ∀ credentials : LoginCredentials.t,
    LoginCredentials.email credentials ≠ "" →
    LoginCredentials.password credentials ≠ "" →
    JS.includes (LoginCredentials.email credentials) "@" = true →
    ∃ (u : User.t) (rest : string),
      result (login now o credentials) w = Returned (success u) ∧
      User.email u = LoginCredentials.email credentials ∧
      LoginCredentials.email credentials = User.name u +:+ "@" +:+ rest ∧
      JS.includes (User.name u) "@" = false ∧
      AuthState.user (authState (after (login now o credentials) w)) = User.to_value u ∧
      AuthState.isAuthenticated (authState (after (login now o credentials) w)) = true ∧
      AuthState.isLoading (authState (after (login now o credentials) w)) = false.
Proof.
  split.
  { unfold result. by rewrite login_run. }
  intros credentials He%not_str_false Hp%not_str_false Hat.
  destruct (split_hd_before_first _ Hat) as [rest [Hsplit Hname]].
  exists (login_user now credentials), rest.
  unfold result, after. rewrite login_run. unfold login_violation.
  rewrite He, Hp, Hat. simpl. by rewrite accepted_authState.
Qed.

(** C6, as the code has it.  For every signup input with a name, a
    well-formed email and a password shorter than 6, [signup] returns
    [{ success: false }] and leaves [user] and [isAuthenticated] as they
    were.  The message is about the length when the password is not empty;
    an empty password fails the first check, whose message is that all
    fields are required. *)
Theorem signup_short_password
    (now : Z) (o : io) (credentials : SignupCredentials.t) (w : World) :
  SignupCredentials.name credentials ≠ "" →
  SignupCredentials.email credentials ≠ "" →
  JS.includes (SignupCredentials.email credentials) "@" = true →
  String.length (SignupCredentials.password credentials) < 6 →
  result (signup now o credentials) w =
    Returned (failure
      (if JS.not_str (SignupCredentials.password credentials)
       then "All fields are required"
       else "Password must be at least 6 characters")) ∧
  AuthState.user (authState (after (signup now o credentials) w)) =
    AuthState.user (authState w) ∧
  AuthState.isAuthenticated (authState (after (signup now o credentials) w)) =
    AuthState.isAuthenticated (authState w).
Proof.
  intros Hn%not_str_false He%not_str_false Hat Hlen%Nat.ltb_lt.
  unfold result, after. rewrite signup_run. unfold signup_violation.
  rewrite Hn, He, Hat, Hlen. simpl.
  by destruct (JS.not_str (SignupCredentials.password credentials)).
Qed.

(** C8, as the code has it.  For every signup input whose name is the empty
    string, [signup] returns [{ success: false }], the first check being the
    one that fails; it has set [isLoading] to true before the check and
    sets it back to false, and changes nothing else of the state or of
    storage.  (Names that are blank or one character long are not part of
    this statement.) *)
Theorem signup_empty_name
    (now : Z) (o : io) (credentials : SignupCredentials.t) (w : World) :
  SignupCredentials.name credentials = "" →
  result (signup now o credentials) w = Returned (failure "All fields are required") ∧
  authTrace (after (signup now o credentials) w) =
    [prev_isLoading false (authState w); prev_isLoading true (authState w)]
      ++ authTrace w ∧
  authState (after (signup now o credentials) w) = prev_isLoading false (authState w) ∧
  disk (after (signup now o credentials) w) = disk w.
Proof.
  intros Hn%not_str_true.
  unfold result, after. rewrite signup_run. unfold signup_violation.
  by rewrite Hn, !orb_true_r.
Qed.

(** The id of a new user is the reading of the clock, written in decimal:
    two users have the same id exactly when the clock read the same. *)
Lemma toString_inj (m n : Z) : JS.toString m = JS.toString n ↔ m = n.
Proof. split; [apply pretty_Z_inj | by intros ->]. Qed.

Lemma login_user_id (m n : Z) (c1 c2 : LoginCredentials.t) :
  User.id (login_user m c1) = User.id (login_user n c2) ↔ m = n.
Proof. apply toString_inj. Qed.

Lemma signup_user_id (m n : Z) (c1 : LoginCredentials.t) (c2 : SignupCredentials.t) :
  User.id (login_user m c1) = User.id (signup_user n c2) ↔ m = n.
Proof. apply toString_inj. Qed.

(** [login] is [login_begin] and then, if the checks passed, [login_resume]. *)
Lemma login_split (now : Z) (o : io) (credentials : LoginCredentials.t) (w : World) :
  login now o credentials w =
  match login_begin credentials w with
  | (Returned (Some response), w1) => (Returned response, w1)
  | (Returned None, w1) => login_resume now o credentials w1
  | (Threw e, w1) => (Threw e, w1)
  end.
Proof.
  unfold login, login_begin, login_resume, try_catch, mbind, M_bind, bind. cbv zeta.
  destruct (JS.not_str (LoginCredentials.email credentials)
            || JS.not_str (LoginCredentials.password credentials)); [reflexivity|].
  destruct (JS.includes (LoginCredentials.email credentials) "@"); [|reflexivity].
  by destruct o.
Qed.

End login_signup.

(** ** Restore and logout *)

Section restore_logout.
Context `{JsonRuntime}.

Lemma loadUserFromStorage_run (o : io) (w : World) :
  ∃ w1, loadUserFromStorage o w = (Returned (persisted_user o (disk w)), w1) ∧
        only_io w w1.
Proof.
  unfold loadUserFromStorage, persisted_user, try_catch, mbind, M_bind, bind,
    AsyncStorage_getItem, settle, JSON_parse_call.
  destruct o as [|e]; simpl; [|by eexists].
  destruct (disk w !! AUTH_USER_KEY) as [text|]; [|by eexists].
  destruct (JS.not_str text); [by eexists|].
  destruct (JSON_parse text); by eexists.
Qed.

Lemma initializeAuth_run (o : io) (w : World) :
  ∃ w1, initializeAuth o w =
          (Returned tt, with_authState (restored o (disk w) (authState w)) w1) ∧
        only_io w w1.
Proof.
  destruct (loadUserFromStorage_run o w) as (w1 & Hload & Hio).
  exists w1. split; [|done]. destruct Hio as (Hs & _).
  unfold initializeAuth, restored, try_catch, mbind, M_bind, bind.
  rewrite Hload. simpl.
  destruct (JS.truthy (persisted_user o (disk w))); simpl; [done | by rewrite Hs].
Qed.

Lemma initializeAuth_result (o : io) (w : World) :
  result (initializeAuth o) w = Returned tt.
Proof.
  destruct (initializeAuth_run o w) as (w1 & Hrun & _). unfold result. by rewrite Hrun.
Qed.

Lemma initializeAuth_authState (o : io) (w : World) :
  authState (after (initializeAuth o) w) = restored o (disk w) (authState w).
Proof.
  destruct (initializeAuth_run o w) as (w1 & Hrun & _). unfold after. by rewrite Hrun.
Qed.

Lemma initializeAuth_themeIsLoading (o : io) (w : World) :
  themeIsLoading (after (initializeAuth o) w) = themeIsLoading w.
Proof.
  destruct (initializeAuth_run o w) as (w1 & Hrun & Hio). unfold after. rewrite Hrun.
  simpl. apply Hio.
Qed.

Lemma restored_isInitializing (o : io) (stored : gmap string string) (s : AuthState.t) :
  AuthState.isInitializing (restored o stored s) = false.
Proof. unfold restored. by destruct (JS.truthy _). Qed.

Lemma loadTheme_run (o : io) (w : World) :
  result (loadTheme o) w = Returned tt ∧
  themeIsLoading (after (loadTheme o) w) = false ∧
  authState (after (loadTheme o) w) = authState w ∧
  disk (after (loadTheme o) w) = disk w ∧
  theme (after (loadTheme o) w) =
    match o with
    | Resolves =>
        match disk w !! THEME_STORAGE_KEY with
        | Some text =>
            if String.eqb text "light" then light
            else if String.eqb text "dark" then dark
            else theme w
        | None => theme w
        end
    | Rejects _ => theme w
    end.
Proof.
  unfold result, after, loadTheme, try_finally, try_catch, mbind, M_bind, bind,
    AsyncStorage_getItem, settle.
  destruct o as [|e]; simpl; [|done].
  destruct (disk w !! THEME_STORAGE_KEY) as [text|]; [|done].
  destruct (String.eqb_spec text "light") as [->|_]; [done|].
  destruct (String.eqb_spec text "dark") as [->|_]; [done|].
  simpl. by rewrite andb_false_r.
Qed.

(** C3. The start-up restore of each store ends with its flag cleared
    whatever the read does: for every stored content (value present or
    absent) and every outcome of the read (resolved or rejected),
    [initializeAuth] returns with [isInitializing] false and [loadTheme]
    returns with [isLoading] false, run alone or one after the other in
    either order; and when the read is rejected at start-up the session
    state is the unauthenticated one (no user, [isAuthenticated] false) and
    the mode is the default, light. *)
Theorem restore_clears_flags
    (o1 o2 : io) (e1 e2 : JS.thrown) (stored : gmap string string) (w : World) :
  result (initializeAuth o1) w = Returned tt ∧
  AuthState.isInitializing (authState (after (initializeAuth o1) w)) = false ∧
  result (loadTheme o2) w = Returned tt ∧
  themeIsLoading (after (loadTheme o2) w) = false ∧
  (let both := after (loadTheme o2) (after (initializeAuth o1) w) in
   AuthState.isInitializing (authState both) = false ∧ themeIsLoading both = false) ∧
  (let both := after (initializeAuth o1) (after (loadTheme o2) w) in
   AuthState.isInitializing (authState both) = false ∧ themeIsLoading both = false) ∧
  authState (after (initializeAuth (Rejects e1)) (initialWorld stored)) =
    {| AuthState.user := JS.Null;
       AuthState.isLoading := false;
       AuthState.isAuthenticated := false;
       AuthState.isInitializing := false |} ∧
  theme (after (loadTheme (Rejects e2)) (initialWorld stored)) = light.
Proof.
  destruct (loadTheme_run o2 w) as (Hr2 & Hl2 & _).
  destruct (loadTheme_run o2 (after (initializeAuth o1) w)) as (_ & Hl3 & Hs3 & _).
  repeat split; cbv zeta;
    rewrite ?Hs3, ?initializeAuth_result, ?initializeAuth_authState,
      ?restored_isInitializing, ?initializeAuth_themeIsLoading;
    done.
Qed.

Lemma logout_run (o : io) (w : World) :
  logout o w = (Returned tt, with_authState signed_out (cleared o w)).
Proof. by destruct o. Qed.

(** C4, as the code has it.  [logout] always returns and never shows an
    error, whether the removal from storage resolves or is rejected: it asks
    storage to remove the record under the auth key, then sets the state to
    [{ user: null, isAuthenticated: false, isLoading: false,
    isInitializing: false }]; a second logout does the same.  When the
    removal resolves, the key is absent afterwards and a restart restores
    [isAuthenticated = false]; when it is rejected, storage keeps what it
    held. *)
Theorem logout_resets_session (o o2 o3 : io) (e : JS.thrown) (w : World) :
  result (logout o) w = Returned tt ∧
  alerts (after (logout o) w) = alerts w ∧
  requests (after (logout o) w) = RemoveItem AUTH_USER_KEY :: requests w ∧
  authState (after (logout o) w) =
    {| AuthState.user := JS.Null;
       AuthState.isLoading := false;
       AuthState.isAuthenticated := false;
       AuthState.isInitializing := false |} ∧
  result (logout o2) (after (logout o) w) = Returned tt ∧
  authState (after (logout o2) (after (logout o) w)) = authState (after (logout o) w) ∧
  disk (after (logout Resolves) w) !! AUTH_USER_KEY = None ∧
  AuthState.isAuthenticated
    (authState (after (initializeAuth o3) (restart (after (logout Resolves) w)))) = false ∧
  disk (after (logout (Rejects e)) w) = disk w.
Proof.
  unfold result, after. rewrite !logout_run. simpl.
  repeat split; try by destruct o.
  - apply lookup_delete_eq.
  - change (snd (initializeAuth o3 ?w0)) with (after (initializeAuth o3) w0).
    rewrite initializeAuth_authState. unfold restored, persisted_user, restart. simpl.
    rewrite lookup_delete_eq. by destruct o3.
Qed.

(** C10. At start-up the session store takes the stored record as it
    parses, without looking at its shape.  When the read resolves, the state
    after the restore is signed in as [v], with [user = v] and
    [isAuthenticated = true], exactly when the text under the auth key
    parses as [v] and [v] is truthy, whatever kind of value [v] is; and it
    is the unauthenticated state exactly when the key is absent, the text
    does not parse, or it parses as a falsy value. *)
Theorem restore_adopts_truthy_value (stored : gmap string string) (v : JS.value) :
  (authState (after (initializeAuth Resolves) (initialWorld stored)) = signed_in v ↔
   ∃ text, stored !! AUTH_USER_KEY = Some text ∧
           JSON_parse text = Some v ∧ JS.truthy v = true) ∧
  (authState (after (initializeAuth Resolves) (initialWorld stored)) =
     {| AuthState.user := JS.Null;
        AuthState.isLoading := false;
        AuthState.isAuthenticated := false;
        AuthState.isInitializing := false |} ↔
   stored !! AUTH_USER_KEY = None ∨
   ∃ text, stored !! AUTH_USER_KEY = Some text ∧
           (JSON_parse text = None ∨
            ∃ v0, JSON_parse text = Some v0 ∧ JS.truthy v0 = false)).
Proof.
  rewrite initializeAuth_authState. unfold restored, persisted_user. simpl.
  destruct (stored !! AUTH_USER_KEY) as [text|] eqn:Hkey; simpl.
  2: { split; split; try done; [by intros [? [? _]] | by left]. }
  destruct (JS.not_str text) eqn:Hempty.
  { apply not_str_true in Hempty as ->. simpl. split; split; try done.
    - intros [text [[= <-] [Hp _]]]. by rewrite JSON_parse_empty in Hp.
    - intros _. right. exists "". split; [done|]. left. apply JSON_parse_empty. }
  destruct (JSON_parse text) as [v1|] eqn:Hparse; simpl.
  2: { split; split; try done.
       - intros [? [[= <-] [Hp _]]]. by rewrite Hparse in Hp.
       - intros _. right. exists text. auto. }
  destruct (JS.truthy v1) eqn:Htruthy; split; split.
  - intros [= <-]. eauto.
  - intros [? [[= <-] [Hp _]]]. rewrite Hparse in Hp. by injection Hp as ->.
  - intros [=].
  - intros [|[? [[= <-] [Hp|[v0 [Hp Hf]]]]]]; [done| |]; rewrite Hparse in Hp; [done|].
    injection Hp as ->. congruence.
  - intros [=].
  - intros [? [[= <-] [Hp Ht]]]. rewrite Hparse in Hp. injection Hp as ->. congruence.
  - intros _. right. exists text. split; [done|]. right. eauto.
  - done.
Qed.

End restore_logout.

(** ** The preference store *)

Lemma toggleTheme_run (rendered : ThemeName) (o : io) (w : World) :
  toggleTheme rendered o w =
  (Returned tt,
   let request := SetItem THEME_STORAGE_KEY (ThemeName_literal (flipped rendered)) in
   match o with
   | Resolves =>
       with_disk (<[THEME_STORAGE_KEY := ThemeName_literal (flipped rendered)]> (disk w))
         (with_request request (with_theme (flipped rendered) w))
   | Rejects _ =>
       with_console "Error saving theme:"
         (with_request request (with_theme (flipped rendered) w))
   end).
Proof. by destruct o, rendered. Qed.


(** Two calls of the closure of one render both start from the mode of
    that render: the second sets the value the first has set. *)
Remark toggleTheme_same_render (rendered : ThemeName) (o1 o2 : io) (w : World) :
  theme (after (toggleTheme rendered o2) (after (toggleTheme rendered o1) w)) =
  flipped rendered.
Proof. unfold after. rewrite !toggleTheme_run. by destruct o1, o2. Qed.

(** ** The stores run on the sample inputs *)

Section samples.
#[local] Existing Instance ReferenceJson.runtime.

(** C2: [login] with an empty email fails as stated. *)
Lemma login_invalid_rejected_sample :
  result (login Sample.clock Resolves Sample.no_email) (initialWorld ∅) =
    Returned (failure "Email and password are required") ∧
  authTrace (after (login Sample.clock Resolves Sample.no_email) (initialWorld ∅)) =
    [prev_isLoading false initialAuthState; prev_isLoading true initialAuthState] ∧
  authState (after (login Sample.clock Resolves Sample.no_email) (initialWorld ∅)) =
    prev_isLoading false initialAuthState ∧
  disk (after (login Sample.clock Resolves Sample.no_email) (initialWorld ∅)) = ∅ ∧
  requests (after (login Sample.clock Resolves Sample.no_email) (initialWorld ∅)) = [].
Proof.
  apply (login_invalid_rejected Sample.clock Resolves Sample.no_email (initialWorld ∅)).
  left. reflexivity.
Defined.

(** C2, against the claim as written: the call with an empty email does set
    [isLoading], so a state during the call differs from the state before
    it; and when another call is waiting at its timer, the state after the
    call differs from the state before it too. *)
Lemma login_invalid_sets_isLoading :
  LoginCredentials.email Sample.no_email = "" ∧
  (∃ s, s ∈ authTrace (after (login Sample.clock Resolves Sample.no_email) (initialWorld ∅)) ∧
        AuthState.isLoading s = true ∧
        s ≠ authState (initialWorld ∅)) ∧
  authState (after (login Sample.clock Resolves Sample.no_email)
                   (after (login_begin Sample.a_at_b) (initialWorld ∅)))
    ≠ authState (after (login_begin Sample.a_at_b) (initialWorld ∅)).
Proof.
  split; [reflexivity|]. split.
  - exists (prev_isLoading true initialAuthState). split; [|split].
    + vm_compute. apply list_elem_of_further, list_elem_of_here.
    + reflexivity.
    + discriminate.
  - vm_compute. discriminate.
Qed.

(** C5: the general statement at [a@b.com]. *)
Lemma login_well_formed_sample :
  ∃ (u : User.t) (rest : string),
    result (login Sample.clock Resolves Sample.a_at_b) (initialWorld ∅) =
      Returned (success u) ∧
    User.email u = "a@b.com" ∧
    "a@b.com" = User.name u +:+ "@" +:+ rest ∧
    JS.includes (User.name u) "@" = false ∧
    AuthState.user
      (authState (after (login Sample.clock Resolves Sample.a_at_b) (initialWorld ∅))) =
      User.to_value u ∧
    AuthState.isAuthenticated
      (authState (after (login Sample.clock Resolves Sample.a_at_b) (initialWorld ∅))) = true ∧
    AuthState.isLoading
      (authState (after (login Sample.clock Resolves Sample.a_at_b) (initialWorld ∅))) = false.
Proof.
  apply (proj2 (login_well_formed Sample.clock Resolves (initialWorld ∅)) Sample.a_at_b).
  - discriminate.
  - discriminate.
  - reflexivity.
Defined.

(** C6: a password of three characters. *)
Lemma signup_short_password_sample :
  result (signup Sample.clock Resolves Sample.jo_short_password) (initialWorld ∅) =
    Returned (failure "Password must be at least 6 characters") ∧
  AuthState.user
    (authState (after (signup Sample.clock Resolves Sample.jo_short_password) (initialWorld ∅))) =
    JS.Null ∧
  AuthState.isAuthenticated
    (authState (after (signup Sample.clock Resolves Sample.jo_short_password) (initialWorld ∅))) =
    false.
Proof.
  apply (signup_short_password Sample.clock Resolves Sample.jo_short_password (initialWorld ∅)).
  - discriminate.
  - discriminate.
  - reflexivity.
  - simpl. lia.
Defined.

(** C6, against the claim as written: the empty password is shorter than 6,
    and the message [signup] returns for it is not the one about length. *)
Lemma signup_empty_password_message :
  String.length (SignupCredentials.password Sample.jo_no_password) < 6 ∧
  result (signup Sample.clock Resolves Sample.jo_no_password) (initialWorld ∅) =
    Returned (failure "All fields are required") ∧
  "All fields are required" ≠ "Password must be at least 6 characters".
Proof. split; [simpl; lia|]. split; [reflexivity | discriminate]. Qed.

(** C8: an empty name. *)
Lemma signup_empty_name_sample :
  result (signup Sample.clock Resolves Sample.no_name) (initialWorld ∅) =
    Returned (failure "All fields are required") ∧
  authTrace (after (signup Sample.clock Resolves Sample.no_name) (initialWorld ∅)) =
    [prev_isLoading false initialAuthState; prev_isLoading true initialAuthState] ∧
  authState (after (signup Sample.clock Resolves Sample.no_name) (initialWorld ∅)) =
    prev_isLoading false initialAuthState ∧
  disk (after (signup Sample.clock Resolves Sample.no_name) (initialWorld ∅)) = ∅.
Proof.
  apply (signup_empty_name Sample.clock Resolves Sample.no_name (initialWorld ∅)).
  reflexivity.
Defined.

(** C8, against the claim as written: the form validator of the signup
    screen refuses a name of one letter and a blank name, and [signup]
    accepts both; and the call with an empty name has set [isLoading]
    before it fails. *)
Lemma signup_accepts_short_name :
  SignupScreen.name (SignupScreen.newErrors "A" "a@b.com" "abcdef") =
    Some "Name must be at least 2 characters" ∧
  result (signup Sample.clock Resolves Sample.one_letter_name) (initialWorld ∅) =
    Returned (success {| User.id := "1700000000000";
                         User.email := "a@b.com";
                         User.name := "A" |}) ∧
  SignupScreen.name (SignupScreen.newErrors " " "a@b.com" "abcdef") =
    Some "Name is required" ∧
  result (signup Sample.clock Resolves Sample.blank_name) (initialWorld ∅) =
    Returned (success {| User.id := "1700000000000";
                         User.email := "a@b.com";
                         User.name := " " |}) ∧
  (∃ s, s ∈ authTrace (after (signup Sample.clock Resolves Sample.no_name) (initialWorld ∅)) ∧
        AuthState.isLoading s = true ∧
        s ≠ authState (initialWorld ∅)).
Proof.
  split_and!; try by vm_compute.
  exists (prev_isLoading true initialAuthState). split_and!.
  - vm_compute. apply list_elem_of_further, list_elem_of_here.
  - reflexivity.
  - discriminate.
Qed.


(** C4, against the claim as written: a user logs in, then logs out while
    storage rejects the removal.  [logout] returns and the state is reset,
    but the record is still stored, and a restart signs the user in again. *)
Lemma logout_failed_removal_keeps_record :
  let w0 := after (login Sample.clock Resolves Sample.a_at_b) (initialWorld ∅) in
  let w1 := after (logout (Rejects Sample.io_error)) w0 in
  result (logout (Rejects Sample.io_error)) w0 = Returned tt ∧
  AuthState.isAuthenticated (authState w1) = false ∧
  disk w1 !! AUTH_USER_KEY ≠ None ∧
  AuthState.isAuthenticated (authState (after (initializeAuth Resolves) (restart w1))) = true.
Proof. cbv zeta. split_and!; by vm_compute. Qed.

(** C9, on the code: two calls of [login] made in the same turn both pass
    their checks and wait at their timers; the timers end together and the
    clock reads the same for both.  Both calls succeed, for two different
    users, and the two users have the same id. *)
Theorem concurrent_logins_share_id :
  let w1 := after (login_begin Sample.a_at_b) (initialWorld ∅) in
  let w2 := after (login_begin Sample.c_at_d) w1 in
  let w3 := after (login_resume Sample.clock Resolves Sample.a_at_b) w2 in
  ∃ u1 u2 : User.t,
    result (login_resume Sample.clock Resolves Sample.a_at_b) w2 = Returned (success u1) ∧
    result (login_resume Sample.clock Resolves Sample.c_at_d) w3 = Returned (success u2) ∧
    User.email u1 ≠ User.email u2 ∧
    User.id u1 = "1700000000000" ∧
    User.id u2 = "1700000000000".
Proof.
  exists (login_user Sample.clock Sample.a_at_b), (login_user Sample.clock Sample.c_at_d).
  split_and!; by vm_compute.
Qed.

(** C10: a stored number is adopted as the user. *)
Lemma restore_adopts_number :
  authState (after (initializeAuth Resolves) (initialWorld (Sample.holding "42"))) =
  signed_in (JS.Num (JS.Finite (inject_Z 42))).
Proof.
  apply (proj1 (restore_adopts_truthy_value (Sample.holding "42") _)).
  exists "42". split_and!; reflexivity.
Defined.

Example restore_adopts_string :
  authState (after (initializeAuth Resolves) (initialWorld (Sample.holding Sample.text_of_x))) =
  signed_in (JS.Str "x").
Proof. by vm_compute. Qed.

Example restore_adopts_empty_array :
  authState (after (initializeAuth Resolves) (initialWorld (Sample.holding "[]"))) =
  signed_in (JS.Arr []).
Proof. by vm_compute. Qed.

Example restore_skips_zero :
  authState (after (initializeAuth Resolves) (initialWorld (Sample.holding "0"))) =
  prev_isInitializing false initialAuthState.
Proof. by vm_compute. Qed.

Example restore_skips_broken_text :
  authState (after (initializeAuth Resolves) (initialWorld (Sample.holding "{oops"))) =
  prev_isInitializing false initialAuthState.
Proof. by vm_compute. Qed.

(** A login, then a restart: the stored record is read back and the session
    is restored with the same user. *)
Example login_then_restart :
  let w := after (login Sample.clock Resolves Sample.a_at_b) (initialWorld ∅) in
  let s := authState (after (initializeAuth Resolves) (restart w)) in
  s = authState w ∧
  JS.get "id" (AuthState.user s) = Some (JS.Str "1700000000000") ∧
  JS.get "email" (AuthState.user s) = Some (JS.Str "a@b.com").
Proof. cbv zeta. split_and!; by vm_compute. Qed.

(** A login, a logout whose removal resolves, then a restart. *)
Example logout_then_restart :
  let w := after (logout Resolves)
             (after (login Sample.clock Resolves Sample.a_at_b) (initialWorld ∅)) in
  disk w !! AUTH_USER_KEY = None ∧
  authState (after (initializeAuth Resolves) (restart w)) =
    prev_isInitializing false initialAuthState.
Proof. cbv zeta. split; by vm_compute. Qed.

End samples.

(** * Further properties of the code *)

(** ** Calls of login and signup *)

Section calls.
Context `{JsonRuntime}.

Lemma sign_in_call_run (now : Z) (o : io)
    (credentials : LoginCredentials.t + SignupCredentials.t) (w : World) :
  (∃ message,
     sign_in_call now o credentials w =
       (Returned (failure message), rejected (alert_title credentials) message w)) ∨
  (∃ u, User.id u = JS.toString now ∧
        sign_in_call now o credentials w = (Returned (success u), accepted o u w)).
Proof.
  destruct credentials as [c|c]; simpl.
  - rewrite login_run. destruct (login_violation c) as [message|].
    + left. by exists message.
    + right. by exists (login_user now c).
  - rewrite signup_run. destruct (signup_violation c) as [message|].
    + left. by exists message.
    + right. by exists (signup_user now c).
Qed.

Lemma accepted_frame (o : io) (u : User.t) (w : World) :
  alerts (accepted o u w) = alerts w ∧
  theme (accepted o u w) = theme w ∧
  themeIsLoading (accepted o u w) = themeIsLoading w.
Proof. by destruct o. Qed.

(** X1. For every signup input with a non-empty name, a non-empty email
    that contains [@] and a password of at least 6 characters, [signup]
    returns [{ success: true }] with a user that has the name and the email
    as given and the clock reading as id; the state is then signed in as
    that user, and no alert is shown. *)
Theorem signup_well_formed
    (now : Z) (o : io) (credentials : SignupCredentials.t) (w : World) :
  SignupCredentials.name credentials ≠ "" →
  SignupCredentials.email credentials ≠ "" →
  JS.includes (SignupCredentials.email credentials) "@" = true →
  6 ≤ String.length (SignupCredentials.password credentials) →
  result (signup now o credentials) w =
    Returned (success {| User.id := JS.toString now;
                         User.email := SignupCredentials.email credentials;
                         User.name := SignupCredentials.name credentials |}) ∧
  AuthState.user (authState (after (signup now o credentials) w)) =
    User.to_value {| User.id := JS.toString now;
                     User.email := SignupCredentials.email credentials;
                     User.name := SignupCredentials.name credentials |} ∧
  AuthState.isAuthenticated (authState (after (signup now o credentials) w)) = true ∧
  AuthState.isLoading (authState (after (signup now o credentials) w)) = false ∧
  alerts (after (signup now o credentials) w) = alerts w.
Proof.
  intros Hn%not_str_false He%not_str_false Hat Hlen.
  assert (Hp : JS.not_str (SignupCredentials.password credentials) = false).
  { apply not_str_false. intros Hp. rewrite Hp in Hlen. simpl in Hlen. lia. }
  assert (Hlong : (String.length (SignupCredentials.password credentials) <? 6)%nat = false)
    by by apply Nat.ltb_ge.
  unfold result, after. rewrite signup_run. unfold signup_violation.
  rewrite Hn, He, Hp, Hat, Hlong. simpl.
  rewrite accepted_authState. split_and!; try done.
  apply accepted_frame.
Qed.

(** X2. Whenever [signup] returns [{ success: false }], it returns an error
    message, shows it in one alert titled "Signup Error", has written
    nothing to storage, and leaves the state as it was before the call but
    for [isLoading], which is false. *)
Theorem signup_failure_frame
    (now : Z) (o : io) (credentials : SignupCredentials.t) (w : World)
    (response : AuthResponse.t) :
  result (signup now o credentials) w = Returned response →
  AuthResponse.success response = false →
  ∃ message,
    AuthResponse.error response = Some message ∧
    AuthResponse.user response = None ∧
    alerts (after (signup now o credentials) w) = ("Signup Error", message) :: alerts w ∧
    disk (after (signup now o credentials) w) = disk w ∧
    requests (after (signup now o credentials) w) = requests w ∧
    authState (after (signup now o credentials) w) = prev_isLoading false (authState w).
Proof.
  unfold result, after. rewrite signup_run.
  destruct (signup_violation credentials) as [message|]; simpl.
  - intros [= <-] _. by exists message.
  - by intros [= <-].
Qed.

(** X3. A call of [login] or [signup] never throws.  It returns either
    [{ success: true, user }] with no error, and then shows no alert, or
    [{ success: false, error }] with no user, and then shows exactly one
    alert, titled "Login Error" or "Signup Error", whose text is the error
    returned. *)
Theorem sign_in_call_response (now : Z) (o : io)
    (credentials : LoginCredentials.t + SignupCredentials.t) (w : World) :
  ∃ response,
    result (sign_in_call now o credentials) w = Returned response ∧
    ((AuthResponse.success response = true ∧
      AuthResponse.error response = None ∧
      (∃ u, AuthResponse.user response = Some u) ∧
      alerts (after (sign_in_call now o credentials) w) = alerts w) ∨
     (AuthResponse.success response = false ∧
      AuthResponse.user response = None ∧
      ∃ message,
        AuthResponse.error response = Some message ∧
        alerts (after (sign_in_call now o credentials) w) =
          (alert_title credentials, message) :: alerts w)).
Proof.
  unfold result, after.
  destruct (sign_in_call_run now o credentials w) as [[message ->]|[u [_ ->]]]; simpl.
  - exists (failure message). split; [done|]. right. split_and!; try done. by exists message.
  - exists (success u). split; [done|]. left. split_and!; try done; [by exists u|].
    apply accepted_frame.
Qed.

(** X4. Credentials that [signup] accepts are accepted by [login]: when
    [signup] has succeeded, a later [login] with the same email and
    password succeeds, whatever the state, the clock and storage are then. *)
Theorem signup_then_login
    (now now1 : Z) (o o1 : io) (credentials : SignupCredentials.t) (w w1 : World)
    (u : User.t) :
  result (signup now o credentials) w = Returned (success u) →
  ∃ u1,
    result (login now1 o1
              {| LoginCredentials.email := SignupCredentials.email credentials;
                 LoginCredentials.password := SignupCredentials.password credentials |}) w1
      = Returned (success u1) ∧
    User.email u1 = User.email u.
Proof.
  unfold result. rewrite signup_run, login_run. unfold signup_violation, login_violation.
  simpl.
  destruct (JS.not_str (SignupCredentials.email credentials)); [done|].
  destruct (JS.not_str (SignupCredentials.password credentials)); [done|].
  destruct (JS.not_str (SignupCredentials.name credentials)); [done|].
  destruct (JS.includes (SignupCredentials.email credentials) "@"); [|done].
  destruct (String.length (SignupCredentials.password credentials) <? 6)%nat; [done|].
  simpl. intros [= <-]. eauto.
Qed.

(** X5. Two successful calls of [login] or [signup] whose clock readings
    differ produce users with different ids. *)
Theorem ids_differ_with_clock
    (now1 now2 : Z) (o1 o2 : io)
    (credentials1 credentials2 : LoginCredentials.t + SignupCredentials.t)
    (w1 w2 : World) (u1 u2 : User.t) :
  result (sign_in_call now1 o1 credentials1) w1 = Returned (success u1) →
  result (sign_in_call now2 o2 credentials2) w2 = Returned (success u2) →
  now1 ≠ now2 →
  User.id u1 ≠ User.id u2.
Proof.
  unfold result.
  destruct (sign_in_call_run now1 o1 credentials1 w1) as [[m1 ->]|[v1 [Hid1 ->]]];
    [done|].
  destruct (sign_in_call_run now2 o2 credentials2 w2) as [[m2 ->]|[v2 [Hid2 ->]]];
    [done|].
  simpl. intros [= <-] [= <-] Hne Hid. apply Hne.
  rewrite Hid1, Hid2 in Hid. by apply toString_inj.
Qed.

End calls.

(** ** The storage adapter and the two key spaces *)

Section adapter.
Context `{JsonRuntime}.

Lemma reads_back_not_empty (u : User.t) :
  reads_back u → JS.not_str (JSON_stringify (User.to_value u)) = false.
Proof.
  unfold reads_back. intros Hback. apply not_str_false. intros Hempty.
  rewrite Hempty, JSON_parse_empty in Hback. discriminate.
Qed.

Lemma loadUserFromStorage_result (o : io) (w : World) :
  result (loadUserFromStorage o) w = Returned (persisted_user o (disk w)).
Proof.
  destruct (loadUserFromStorage_run o w) as (w1 & Hrun & _). unfold result. by rewrite Hrun.
Qed.

(** X6. The storage adapter never throws: for every outcome of the call to
    AsyncStorage and whatever text is stored, [saveUserToStorage],
    [removeUserFromStorage] and [clearAuthStorage] return, and
    [loadUserFromStorage] returns a value, which is [null] when the read is
    rejected, when nothing is stored, and when the stored text is empty or
    is not JSON. *)
Theorem storage_adapter_never_throws
    (o : io) (e : JS.thrown) (u : User.t) (text : string) (w : World) :
  result (saveUserToStorage o u) w = Returned tt ∧
  result (removeUserFromStorage o) w = Returned tt ∧
  result (clearAuthStorage o) w = Returned tt ∧
  (∃ v, result (loadUserFromStorage o) w = Returned v) ∧
  result (loadUserFromStorage (Rejects e)) w = Returned JS.Null ∧
  result (loadUserFromStorage o) (with_disk (delete AUTH_USER_KEY (disk w)) w) =
    Returned JS.Null ∧
  result (loadUserFromStorage o) (with_disk (<[AUTH_USER_KEY := ""]> (disk w)) w) =
    Returned JS.Null ∧
  (JSON_parse text = None →
   result (loadUserFromStorage o) (with_disk (<[AUTH_USER_KEY := text]> (disk w)) w) =
     Returned JS.Null).
Proof.
  rewrite !loadUserFromStorage_result. unfold persisted_user. simpl.
  rewrite lookup_delete_eq, !lookup_insert_eq. simpl.
  split_and!; try by destruct o.
  - by eexists.
  - intros ->. destruct o; [|done]. by destruct (JS.not_str text).
Qed.

(** X7. What [saveUserToStorage] has written, [loadUserFromStorage] reads
    back: with a runtime that parses the record it writes for [u], a save
    and a load that both resolve return the object of [u]; and a save that
    is rejected changes nothing of what a load returns. *)
Theorem save_then_load (u : User.t) (o : io) (e : JS.thrown) (w : World) :
  reads_back u →
  result (loadUserFromStorage Resolves) (after (saveUserToStorage Resolves u) w) =
    Returned (User.to_value u) ∧
  result (loadUserFromStorage o) (after (saveUserToStorage (Rejects e) u) w) =
    result (loadUserFromStorage o) w.
Proof.
  intros Hback. unfold after. rewrite !saveUserToStorage_run.
  rewrite !loadUserFromStorage_result. unfold persisted_user, saved. simpl.
  rewrite lookup_insert_eq, (reads_back_not_empty u Hback), Hback. done.
Qed.

Lemma accepted_disk (o : io) (u : User.t) (w : World) :
  disk (accepted o u w) =
  match o with
  | Resolves => <[AUTH_USER_KEY := JSON_stringify (User.to_value u)]> (disk w)
  | Rejects _ => disk w
  end.
Proof. by destruct o. Qed.

Lemma perform_disk (op : Operation) (key : string) (w : World) :
  key ≠ AUTH_USER_KEY → disk (perform op w) !! key = disk w !! key.
Proof.
  intros Hkey. destruct op as [o|now o c|now o c|o]; simpl; unfold after.
  - destruct (initializeAuth_run o w) as (w1 & -> & Hio). simpl.
    destruct Hio as (_ & _ & _ & _ & -> & _). done.
  - rewrite login_run. destruct (login_violation c); simpl; [done|].
    rewrite accepted_disk. destruct o; [|done]. by rewrite lookup_insert_ne.
  - rewrite signup_run. destruct (signup_violation c); simpl; [done|].
    rewrite accepted_disk. destruct o; [|done]. by rewrite lookup_insert_ne.
  - rewrite logout_run. destruct o; simpl; [|done]. by rewrite lookup_delete_ne.
Qed.

Lemma perform_theme (op : Operation) (w : World) :
  theme (perform op w) = theme w ∧ themeIsLoading (perform op w) = themeIsLoading w.
Proof.
  destruct op as [o|now o c|now o c|o]; simpl; unfold after.
  - destruct (initializeAuth_run o w) as (w1 & -> & Hio). simpl.
    destruct Hio as (_ & _ & -> & -> & _). done.
  - rewrite login_run. destruct (login_violation c); simpl; [done|]. by destruct o.
  - rewrite signup_run. destruct (signup_violation c); simpl; [done|]. by destruct o.
  - rewrite logout_run. by destruct o.
Qed.

(** X8. The session store writes under its own key only: a restore, a
    login, a signup or a logout, with any input and any outcome of the call
    to storage, leaves the value stored under every key other than
    [AUTH_USER] as it was; and the preference store leaves every key other
    than [@app_theme] as it was. *)
Theorem stores_keep_to_their_keys
    (ops : list Operation) (rendered : ThemeName) (o o1 : io) (key : string) (w : World) :
  (key ≠ AUTH_USER_KEY → disk (perform_all ops w) !! key = disk w !! key) ∧
  (key ≠ THEME_STORAGE_KEY →
   disk (after (toggleTheme rendered o) w) !! key = disk w !! key) ∧
  disk (after (loadTheme o1) w) = disk w.
Proof.
  split_and!.
  - intros Hkey. revert w. unfold perform_all.
    induction ops as [|op ops IH]; intros w; simpl; [done|].
    by rewrite IH, perform_disk.
  - intros Hkey. unfold after. rewrite toggleTheme_run.
    destruct o; simpl; [|done]. by rewrite lookup_insert_ne.
  - apply loadTheme_run.
Qed.

(** [loadTheme] never calls [setAuthState]. *)
Lemma loadTheme_authTrace (o : io) (w : World) :
  authTrace (after (loadTheme o) w) = authTrace w.
Proof.
  unfold after, loadTheme, try_finally, try_catch, mbind, M_bind, bind,
    AsyncStorage_getItem, settle.
  destruct o as [|e]; simpl; [|done].
  destruct (disk w !! THEME_STORAGE_KEY) as [text|]; [|done].
  by destruct (negb (JS.not_str text)
               && (String.eqb text "light" || String.eqb text "dark")).
Qed.

(** X9. The two stores do not touch each other: no operation of the
    session store changes the theme, its loading flag or the stored theme,
    and neither a toggle nor the restore of the theme changes the session
    state, its history or the stored user. *)
Theorem stores_are_independent
    (ops : list Operation) (rendered : ThemeName) (o o1 : io) (w : World) :
  theme (perform_all ops w) = theme w ∧
  themeIsLoading (perform_all ops w) = themeIsLoading w ∧
  disk (perform_all ops w) !! THEME_STORAGE_KEY = disk w !! THEME_STORAGE_KEY ∧
  authState (after (toggleTheme rendered o) w) = authState w ∧
  authTrace (after (toggleTheme rendered o) w) = authTrace w ∧
  disk (after (toggleTheme rendered o) w) !! AUTH_USER_KEY = disk w !! AUTH_USER_KEY ∧
  authState (after (loadTheme o1) w) = authState w ∧
  authTrace (after (loadTheme o1) w) = authTrace w ∧
  disk (after (loadTheme o1) w) !! AUTH_USER_KEY = disk w !! AUTH_USER_KEY.
Proof.
  assert (Hall : theme (perform_all ops w) = theme w ∧
                 themeIsLoading (perform_all ops w) = themeIsLoading w ∧
                 disk (perform_all ops w) !! THEME_STORAGE_KEY =
                   disk w !! THEME_STORAGE_KEY).
  { revert w. unfold perform_all.
    induction ops as [|op ops IH]; intros w; simpl; [done|].
    destruct (IH (perform op w)) as (-> & -> & ->).
    destruct (perform_theme op w) as [-> ->]. by rewrite perform_disk. }
  destruct Hall as (-> & -> & ->).
  destruct (loadTheme_run o1 w) as (_ & _ & Hs & Hd & _).
  pose proof (loadTheme_authTrace o1 w) as Htrace.
  unfold after in *. rewrite Hs, Hd, Htrace, toggleTheme_run.
  split_and!; try done; destruct o; simpl; try done.
  by rewrite lookup_insert_ne.
Qed.

End adapter.

(** ** Sessions and preferences across restarts *)

Section restarts.
Context `{JsonRuntime}.

(** X10. A session survives a restart: when a [login] or a [signup] has
    succeeded with user [u] and its write to storage has resolved, then,
    with a runtime that parses the record it writes for [u], the restore of
    a restarted application whose read resolves leaves the state signed in
    as [u], with the same id and email. *)
Theorem session_survives_restart
    (now : Z) (credentials : LoginCredentials.t + SignupCredentials.t)
    (w : World) (u : User.t) :
  result (sign_in_call now Resolves credentials) w = Returned (success u) →
  reads_back u →
  authState (after (initializeAuth Resolves)
                   (restart (after (sign_in_call now Resolves credentials) w))) =
    {| AuthState.user := User.to_value u;
       AuthState.isLoading := false;
       AuthState.isAuthenticated := true;
       AuthState.isInitializing := false |}.
Proof.
  unfold result, after at 2.
  destruct (sign_in_call_run now Resolves credentials w) as [[m ->]|[v [_ ->]]]; [done|].
  simpl. intros [= <-] Hback.
  rewrite initializeAuth_authState. unfold restored, persisted_user, restart. simpl.
  rewrite lookup_insert_eq, (reads_back_not_empty v Hback).
  unfold reads_back in Hback. by rewrite !Hback.
Qed.

(** X11. A write that fails does not undo a login: when storage rejects
    the write, a well-formed [login] still returns [{ success: true }] and
    leaves the state signed in, storage holds what it held before, and the
    failure is only logged (no alert). *)
Theorem login_survives_failed_write
    (now : Z) (e : JS.thrown) (credentials : LoginCredentials.t) (w : World) :
  LoginCredentials.email credentials ≠ "" →
  LoginCredentials.password credentials ≠ "" →
  JS.includes (LoginCredentials.email credentials) "@" = true →
  (∃ u, result (login now (Rejects e) credentials) w = Returned (success u)) ∧
  AuthState.isAuthenticated (authState (after (login now (Rejects e) credentials) w)) = true ∧
  disk (after (login now (Rejects e) credentials) w) = disk w ∧
  alerts (after (login now (Rejects e) credentials) w) = alerts w ∧
  console (after (login now (Rejects e) credentials) w) =
    "Failed to save user to storage:" :: console w.
Proof.
  intros He%not_str_false Hp%not_str_false Hat.
  unfold result, after. rewrite login_run. unfold login_violation.
  rewrite He, Hp, Hat. simpl. split_and!; try done. by eexists.
Qed.

(** X12. The preference survives a restart: after a toggle whose write
    resolves, the restore of a restarted application whose read resolves
    sets the mode to the toggled one and clears the loading flag. *)
Theorem theme_survives_restart (w : World) :
  theme (after (loadTheme Resolves) (restart (after (ThemeToggle_onPress Resolves) w))) =
    flipped (theme w) ∧
  themeIsLoading
    (after (loadTheme Resolves) (restart (after (ThemeToggle_onPress Resolves) w))) = false.
Proof.
  destruct (loadTheme_run Resolves (restart (after (ThemeToggle_onPress Resolves) w)))
    as (_ & -> & _ & _ & ->).
  split; [|done].
  unfold restart, after, ThemeToggle_onPress. rewrite toggleTheme_run. simpl.
  rewrite lookup_insert_eq. by destruct (theme w).
Qed.

(** X13. The restore of the theme adopts a stored value only when it is
    one of the two mode names: for every stored text other than [light] and
    [dark], as when nothing is stored or the read is rejected, the mode
    stays what it was; in every case the loading flag ends false and
    nothing is thrown. *)
Theorem loadTheme_ignores_other_values (o : io) (text : string) (w : World) :
  text ≠ "light" →
  text ≠ "dark" →
  disk w !! THEME_STORAGE_KEY = Some text →
  result (loadTheme o) w = Returned tt ∧
  theme (after (loadTheme o) w) = theme w ∧
  themeIsLoading (after (loadTheme o) w) = false.
Proof.
  intros Hl%String.eqb_neq Hd%String.eqb_neq Hkey.
  destruct (loadTheme_run o w) as (-> & -> & _ & _ & ->).
  rewrite Hkey, Hl, Hd. by destruct o.
Qed.

End restarts.

(** ** States the session store can be in *)

Section reachable.
Context `{JsonRuntime}.

(** The four ways an operation leaves the session state. *)
Lemma perform_authState (op : Operation) (w : World) :
  (∃ v, JS.truthy v = true ∧ authState (perform op w) = signed_in v) ∨
  authState (perform op w) = prev_isInitializing false (authState w) ∨
  authState (perform op w) = prev_isLoading false (authState w) ∨
  authState (perform op w) = signed_out.
Proof.
  destruct op as [o|now o c|now o c|o]; simpl.
  - rewrite initializeAuth_authState. unfold restored.
    destruct (JS.truthy (persisted_user o (disk w))) eqn:Hv; [left; eauto | right; by left].
  - unfold after. rewrite login_run. destruct (login_violation c); simpl.
    + right. right. by left.
    + left. rewrite accepted_authState. by exists (User.to_value (login_user now c)).
  - unfold after. rewrite signup_run. destruct (signup_violation c); simpl.
    + right. right. by left.
    + left. rewrite accepted_authState. by exists (User.to_value (signup_user now c)).
  - unfold after. rewrite logout_run. by repeat right.
Qed.

Lemma perform_all_cons (op : Operation) (ops : list Operation) (w : World) :
  perform_all (op :: ops) w = perform_all ops (perform op w).
Proof. reflexivity. Qed.

Lemma perform_all_snoc (ops : list Operation) (op : Operation) (w : World) :
  perform_all (ops ++ [op]) w = perform op (perform_all ops w).
Proof. unfold perform_all. by rewrite foldl_app. Qed.

(** X14. [isInitializing] is true only until the restore has run: once
    [initializeAuth] has ended, whatever it found, no sequence of restores,
    logins, signups and logouts makes [isInitializing] true again. *)
Theorem isInitializing_never_again (o : io) (ops : list Operation) (w : World) :
  AuthState.isInitializing (authState (perform_all ops (perform (Restore o) w))) = false.
Proof.
  assert (Hstart : AuthState.isInitializing (authState (perform (Restore o) w)) = false).
  { simpl. by rewrite initializeAuth_authState, restored_isInitializing. }
  revert Hstart. generalize (perform (Restore o) w). clear w.
  induction ops as [|op ops IH]; intros w Hw; [done|].
  rewrite perform_all_cons. apply IH.
  destruct (perform_authState op w) as [[v [_ ->]] | [ -> | [ -> | -> ]]]; done.
Qed.

(** X15. No completed call leaves [isLoading] true: after any [login] or
    [signup], failed or successful, and after any [logout], [isLoading] is
    false; and a restore does not set it (it leaves it false when it was). *)
Theorem isLoading_settles (now : Z) (o o1 o2 : io)
    (credentials : LoginCredentials.t + SignupCredentials.t) (w : World) :
  AuthState.isLoading (authState (after (sign_in_call now o credentials) w)) = false ∧
  AuthState.isLoading (authState (after (logout o1) w)) = false ∧
  (AuthState.isLoading (authState w) = false →
   AuthState.isLoading (authState (after (initializeAuth o2) w)) = false).
Proof.
  split_and!.
  - unfold after.
    destruct (sign_in_call_run now o credentials w) as [[m ->]|[u [_ ->]]]; simpl; [done|].
    by rewrite accepted_authState.
  - unfold after. by rewrite logout_run.
  - intros Hw. rewrite initializeAuth_authState. unfold restored.
    by destruct (JS.truthy _).
Qed.

Lemma perform_user_invariant (op : Operation) (w : World) :
  user_invariant (authState w) ∧ AuthState.isLoading (authState w) = false →
  user_invariant (authState (perform op w)) ∧
  AuthState.isLoading (authState (perform op w)) = false.
Proof.
  intros [Hu Hl].
  destruct (perform_authState op w) as [[v [Hv ->]] | [ -> | [ -> | -> ]]];
    [unfold user_invariant; simpl; by rewrite Hv | done..].
Qed.

Lemma perform_all_user_invariant (ops : list Operation) (w : World) :
  user_invariant (authState w) ∧ AuthState.isLoading (authState w) = false →
  user_invariant (authState (perform_all ops w)) ∧
  AuthState.isLoading (authState (perform_all ops w)) = false.
Proof.
  revert w. induction ops as [|op ops IH]; intros w Hw; [done|].
  rewrite perform_all_cons. by apply IH, perform_user_invariant.
Qed.

(** X16. The user of the session state is never a falsy value: in the
    initial state and after any sequence of restores, logins, signups and
    logouts, [isAuthenticated] is true exactly when [user] is truthy (so a
    stored [0], [false] or empty string is never adopted as the user). *)
Theorem user_is_truthy_when_authenticated
    (stored : gmap string string) (ops : list Operation) :
  AuthState.isAuthenticated (authState (perform_all ops (initialWorld stored))) =
  JS.truthy (AuthState.user (authState (perform_all ops (initialWorld stored)))).
Proof. by apply (perform_all_user_invariant ops (initialWorld stored)). Qed.

(** X17. Where the navigator shows the home stack, the home screen has a
    user to show: after any sequence of completed restores, logins, signups
    and logouts from start-up, if [AppNavigation] chooses [MainNavigator]
    then [HomeScreen] renders the home page for the user of the state,
    neither the spinner nor the notice that no user data is available. *)
Theorem HomeScreen_has_user (stored : gmap string string) (ops : list Operation) :
  AppNavigation (authState (perform_all ops (initialWorld stored))) = MainNavigator →
  HomeScreen (authState (perform_all ops (initialWorld stored))) =
    Welcome (AuthState.user (authState (perform_all ops (initialWorld stored)))).
Proof.
  destruct (perform_all_user_invariant ops (initialWorld stored)) as [Hu Hl]; [done|].
  unfold AppNavigation, HomeScreen, user_invariant in *. rewrite Hl, <- Hu.
  destruct (AuthState.isInitializing _); [done|].
  by destruct (AuthState.isAuthenticated _).
Qed.

(** X18. The navigator follows the calls: after a [logout] the login stack
    is shown, whatever the state was; a [login] or [signup] that succeeds
    brings the home stack, and one that fails leaves the navigator that
    was shown. *)
Theorem navigator_follows_calls (now : Z) (o o1 : io)
    (credentials : LoginCredentials.t + SignupCredentials.t) (w : World) :
  AppNavigation (authState (after (logout o1) w)) = AuthNavigator ∧
  ∃ response,
    result (sign_in_call now o credentials) w = Returned response ∧
    AppNavigation (authState (after (sign_in_call now o credentials) w)) =
      if AuthResponse.success response then MainNavigator
      else AppNavigation (authState w).
Proof.
  split.
  - unfold after. by rewrite logout_run.
  - unfold result, after.
    destruct (sign_in_call_run now o credentials w) as [[m ->]|[u [_ ->]]]; simpl.
    + by exists (failure m).
    + exists (success u). by rewrite accepted_authState.
Qed.

Lemma persisted_user_truthy (o : io) (stored : gmap string string) :
  JS.truthy (persisted_user o stored) = true ↔
  o = Resolves ∧
  ∃ text v, stored !! AUTH_USER_KEY = Some text ∧
            JSON_parse text = Some v ∧ JS.truthy v = true.
Proof.
  unfold persisted_user. destruct o as [|e]; [|by split; [|intros [? _]]].
  destruct (stored !! AUTH_USER_KEY) as [text|];
    [|by split; [|intros [_ (? & ? & ? & _)]]].
  destruct (JS.not_str text) eqn:Hempty.
  { apply not_str_true in Hempty as ->. split; [done|].
    intros [_ (? & v & [= <-] & Hp & _)]. by rewrite JSON_parse_empty in Hp. }
  destruct (JSON_parse text) as [v|] eqn:Hparse.
  - split; [by eauto 6|]. intros [_ (? & v1 & [= <-] & Hp & Hv)].
    rewrite Hparse in Hp. by injection Hp as ->.
  - split; [done|]. intros [_ (? & v1 & [= <-] & Hp & _)]. by rewrite Hparse in Hp.
Qed.

(** X19. Start-up always gets past the two loading views.  With the fonts
    loaded, the application shows the theme loader first, the loading
    screen of the navigation once [loadTheme] has ended, and, once
    [initializeAuth] has ended too, the home stack or the login stack
    whatever the two reads did: the home stack exactly when the read of the
    user resolved with a text that parses as a truthy value. *)
Theorem startup_reaches_a_navigator (o_theme o_auth : io) (stored : gmap string string) :
  App true (initialWorld stored) = LoadingTheme ∧
  App true (after (loadTheme o_theme) (initialWorld stored)) = Navigation LoadingScreen ∧
  result (startup o_theme o_auth) (initialWorld stored) = Returned tt ∧
  ∃ n, App true (after (startup o_theme o_auth) (initialWorld stored)) = Navigation n ∧
       (n = MainNavigator ∨ n = AuthNavigator) ∧
       (n = MainNavigator ↔
        o_auth = Resolves ∧
        ∃ text v, stored !! AUTH_USER_KEY = Some text ∧
                  JSON_parse text = Some v ∧ JS.truthy v = true).
Proof.
  destruct (loadTheme_run o_theme (initialWorld stored)) as (Hr & Hl & Hs & Hd & _).
  assert (Hrun : startup o_theme o_auth (initialWorld stored) =
                 initializeAuth o_auth (after (loadTheme o_theme) (initialWorld stored))).
  { unfold startup, mbind, M_bind, bind, after, result in *.
    destruct (loadTheme o_theme (initialWorld stored)) as [[[]|e] w1]; [done|].
    simpl in Hr. discriminate. }
  split_and!.
  - done.
  - unfold App. simpl. by rewrite Hl, Hs.
  - unfold result. rewrite Hrun. apply initializeAuth_result.
  - unfold after at 1. rewrite Hrun.
    change (snd (initializeAuth o_auth ?w0)) with (after (initializeAuth o_auth) w0).
    unfold App. simpl.
    rewrite initializeAuth_themeIsLoading, Hl, initializeAuth_authState, Hd, Hs.
    unfold restored. simpl.
    destruct (JS.truthy (persisted_user o_auth stored)) eqn:Hv.
    + exists MainNavigator. split_and!; [done | by left |].
      by rewrite <- persisted_user_truthy, Hv.
    + exists AuthNavigator. split_and!; [done | by right |].
      by rewrite <- persisted_user_truthy, Hv.
Qed.

End reachable.

(** ** Calls that overlap *)

Section overlap.
Context `{JsonRuntime}.

(** X20. A logout made while a login waits at its timer is undone when the
    login resumes: with well-formed credentials, [login] sets [isLoading]
    and waits; a [logout] run meanwhile resets the state; and when the
    login resumes it signs the user in all the same and, if its write
    resolves, stores the record again. *)
Theorem logout_during_login_is_overridden
    (now : Z) (o1 o2 : io) (credentials : LoginCredentials.t) (w : World) :
  LoginCredentials.email credentials ≠ "" →
  LoginCredentials.password credentials ≠ "" →
  JS.includes (LoginCredentials.email credentials) "@" = true →
  result (login_begin credentials) w = Returned None ∧
  AuthState.isLoading (authState (after (login_begin credentials) w)) = true ∧
  AuthState.isAuthenticated
    (authState (after (logout o1) (after (login_begin credentials) w))) = false ∧
  AuthState.isAuthenticated
    (authState (after (login_resume now o2 credentials)
                  (after (logout o1) (after (login_begin credentials) w)))) = true ∧
  AuthState.user
    (authState (after (login_resume now o2 credentials)
                  (after (logout o1) (after (login_begin credentials) w)))) =
    User.to_value {| User.id := JS.toString now;
                     User.email := LoginCredentials.email credentials;
                     User.name :=
                       hd "" (JS.split (LoginCredentials.email credentials) "@") |} ∧
  is_Some (disk (after (login_resume now Resolves credentials)
                   (after (logout o1) (after (login_begin credentials) w)))
           !! AUTH_USER_KEY).
Proof.
  intros He%not_str_false Hp%not_str_false Hat.
  unfold result, after. rewrite logout_run.
  unfold login_begin, login_resume, try_catch, mbind, M_bind, bind. cbv zeta.
  rewrite He, Hp, Hat. simpl. split_and!; try done.
  - by destruct o2.
  - by destruct o2.
  - rewrite lookup_insert_eq. by eexists.
Qed.

End overlap.

(** X21. [toggleTheme] flips the mode of the render it was made in, not
    the current one: two calls of the closure of one render both set the
    mode to the other value of that render and both ask storage to write
    that value, so the second call does not flip the mode back. *)
Theorem toggleTheme_stale_closure (rendered : ThemeName) (o1 o2 : io) (w : World) :
  theme (after (toggleTheme rendered o2) (after (toggleTheme rendered o1) w)) =
    flipped rendered ∧
  flipped rendered ≠ rendered ∧
  requests (after (toggleTheme rendered o2) (after (toggleTheme rendered o1) w)) =
    [SetItem THEME_STORAGE_KEY (ThemeName_literal (flipped rendered));
     SetItem THEME_STORAGE_KEY (ThemeName_literal (flipped rendered))] ++ requests w.
Proof.
  unfold after. rewrite !toggleTheme_run.
  split_and!; [by destruct o1, o2 | by destruct rendered | by destruct o1, o2].
Qed.

(** ** The forms of the two screens *)

Lemma is_space_not_at (c : ascii) :
  SignupScreen.is_space c = true → Ascii.eqb c "@" = false.
Proof. destruct (Ascii.eqb_spec c "@") as [->|_]; [by vm_compute | done]. Qed.

Lemma includes_trimStart (s : string) :
  JS.includes (SignupScreen.trimStart s) "@" = JS.includes s "@".
Proof.
  induction s as [|c s IH]; [done|].
  cbn [SignupScreen.trimStart]. destruct (SignupScreen.is_space c) eqn:Hc; [|done].
  by rewrite IH, includes_cons, is_space_not_at.
Qed.

Lemma includes_trimEnd (s : string) :
  JS.includes (SignupScreen.trimEnd s) "@" = JS.includes s "@".
Proof.
  induction s as [|c s IH]; [done|].
  cbn [SignupScreen.trimEnd]. rewrite (includes_cons c s), <- IH.
  destruct (SignupScreen.trimEnd s) as [|k kept].
  - destruct (SignupScreen.is_space c) eqn:Hc.
    + by rewrite is_space_not_at.
    + by rewrite includes_cons.
  - by rewrite (includes_cons c).
Qed.

Lemma includes_trim (s : string) :
  JS.includes (SignupScreen.trim s) "@" = JS.includes s "@".
Proof. unfold SignupScreen.trim. by rewrite includes_trimEnd, includes_trimStart. Qed.

Lemma trim_not_empty (s : string) :
  JS.not_str (SignupScreen.trim s) = false → JS.not_str s = false.
Proof. by destruct s. Qed.

Lemma LoginScreen_accepts (email password : string) :
  LoginScreen.validateForm email password = true →
  JS.not_str (SignupScreen.trim email) = false ∧
  JS.includes email "@" = true ∧
  JS.not_str (SignupScreen.trim password) = false ∧
  (String.length password <? 6)%nat = false.
Proof.
  unfold LoginScreen.validateForm, LoginScreen.newErrors.
  destruct (JS.not_str (SignupScreen.trim email)); [done|].
  destruct (JS.includes email "@"); [|done].
  destruct (JS.includes email "."); [|done].
  destruct (JS.not_str (SignupScreen.trim password)); [done|].
  by destruct (String.length password <? 6)%nat.
Qed.

Lemma SignupScreen_accepts (name email password : string) :
  SignupScreen.validateForm name email password = true →
  JS.not_str (SignupScreen.trim name) = false ∧
  (String.length (SignupScreen.trim name) <? 2)%nat = false ∧
  JS.not_str (SignupScreen.trim email) = false ∧
  JS.includes email "@" = true ∧
  JS.not_str (SignupScreen.trim password) = false ∧
  (String.length password <? 6)%nat = false.
Proof.
  unfold SignupScreen.validateForm, SignupScreen.newErrors.
  destruct (JS.not_str (SignupScreen.trim name)); [done|].
  destruct (String.length (SignupScreen.trim name) <? 2)%nat; [done|].
  destruct (JS.not_str (SignupScreen.trim email)); [done|].
  destruct (JS.includes email "@"); [|done].
  destruct (JS.includes email "."); [|done].
  destruct (String.length (SignupScreen.trim email) <? 5)%nat; [done|].
  destruct (JS.not_str (SignupScreen.trim password)); [done|].
  by destruct (String.length password <? 6)%nat.
Qed.

Section forms.
Context `{JsonRuntime}.

(** X22. A form the login screen accepts is never refused by [login]: when
    [validateForm] passes, [handleLogin] returns without an alert and
    leaves the state signed in as a user whose email is the trimmed email
    of the form. *)
Theorem handleLogin_signs_in (now : Z) (o : io) (email password : string) (w : World) :
  LoginScreen.validateForm email password = true →
  (∃ errors, result (LoginScreen.handleLogin now o email password) w = Returned errors) ∧
  alerts (after (LoginScreen.handleLogin now o email password) w) = alerts w ∧
  AuthState.isAuthenticated
    (authState (after (LoginScreen.handleLogin now o email password) w)) = true ∧
  JS.get "email"
    (AuthState.user (authState (after (LoginScreen.handleLogin now o email password) w))) =
    Some (JS.Str (SignupScreen.trim email)).
Proof.
  intros Hform. destruct (LoginScreen_accepts _ _ Hform) as (He & Hat & Hp & _).
  apply trim_not_empty in Hp.
  unfold result, after, LoginScreen.handleLogin. rewrite Hform. cbn [negb].
  unfold mbind, M_bind, bind. rewrite login_run. unfold login_violation. simpl.
  rewrite He, Hp, includes_trim, Hat. simpl.
  split_and!; try by destruct o.
  by eexists.
Qed.

(** X23. A form the signup screen accepts is never refused by [signup]:
    when [validateForm] passes, [handleSignup] returns without an alert and
    leaves the state signed in as a user whose name is the trimmed name of
    the form, of at least 2 characters, and whose email is the trimmed
    email. *)
Theorem handleSignup_signs_in
    (now : Z) (o : io) (name email password : string) (w : World) :
  SignupScreen.validateForm name email password = true →
  (∃ errors,
     result (SignupScreen.handleSignup now o name email password) w = Returned errors) ∧
  alerts (after (SignupScreen.handleSignup now o name email password) w) = alerts w ∧
  authState (after (SignupScreen.handleSignup now o name email password) w) =
    {| AuthState.user :=
         User.to_value {| User.id := JS.toString now;
                          User.email := SignupScreen.trim email;
                          User.name := SignupScreen.trim name |};
       AuthState.isLoading := false;
       AuthState.isAuthenticated := true;
       AuthState.isInitializing := false |} ∧
  2 ≤ String.length (SignupScreen.trim name).
Proof.
  intros Hform.
  destruct (SignupScreen_accepts _ _ _ Hform) as (Hn & Hlen & He & Hat & Hp & Hlong).
  apply trim_not_empty in Hp.
  unfold result, after, SignupScreen.handleSignup. rewrite Hform. cbn [negb].
  unfold mbind, M_bind, bind. rewrite signup_run. unfold signup_violation. simpl.
  rewrite He, Hp, Hn, includes_trim, Hat, Hlong. simpl.
  split_and!; try by destruct o.
  - by eexists.
  - by apply Nat.ltb_ge.
Qed.

(** A form that a screen refuses never reaches the session store: when
    [validateForm] fails, [handleLogin] and [handleSignup] return the
    errors of the form and leave the world as it was. *)
Remark refused_form_changes_nothing
    (now : Z) (o : io) (name email password : string) (w : World) :
  (LoginScreen.validateForm email password = false →
   LoginScreen.handleLogin now o email password w =
     (Returned (LoginScreen.newErrors email password), w)) ∧
  (SignupScreen.validateForm name email password = false →
   SignupScreen.handleSignup now o name email password w =
     (Returned (SignupScreen.newErrors name email password), w)).
Proof.
  unfold LoginScreen.handleLogin, SignupScreen.handleSignup.
  split; by intros ->.
Qed.

End forms.

(** ** The further properties on the sample inputs *)

Section more_samples.
#[local] Existing Instance ReferenceJson.runtime.

(** X1 at the sample signup. *)
Lemma signup_well_formed_sample :
  result (signup Sample.clock Resolves Sample.jo) (initialWorld ∅) =
    Returned (success {| User.id := "1700000000000";
                         User.email := "jo@x.com";
                         User.name := "Jo" |}).
Proof.
  apply (signup_well_formed Sample.clock Resolves Sample.jo (initialWorld ∅)).
  - discriminate.
  - discriminate.
  - reflexivity.
  - simpl. lia.
Defined.

(** X2 at a password of three characters. *)
Lemma signup_failure_frame_sample :
  ∃ message,
    AuthResponse.error (failure "Password must be at least 6 characters") = Some message ∧
    AuthResponse.user (failure "Password must be at least 6 characters") = None ∧
    alerts (after (signup Sample.clock Resolves Sample.jo_short_password) (initialWorld ∅)) =
      [("Signup Error", message)] ∧
    disk (after (signup Sample.clock Resolves Sample.jo_short_password) (initialWorld ∅)) = ∅ ∧
    requests (after (signup Sample.clock Resolves Sample.jo_short_password) (initialWorld ∅)) =
      [] ∧
    authState (after (signup Sample.clock Resolves Sample.jo_short_password) (initialWorld ∅)) =
      prev_isLoading false initialAuthState.
Proof.
  apply (signup_failure_frame Sample.clock Resolves Sample.jo_short_password
           (initialWorld ∅) (failure "Password must be at least 6 characters")).
  - reflexivity.
  - reflexivity.
Defined.

(** X4 at the sample signup. *)
Lemma signup_then_login_sample :
  ∃ u1,
    result (login Sample.clock Resolves
              {| LoginCredentials.email := "jo@x.com";
                 LoginCredentials.password := "abcdef" |}) (initialWorld ∅)
      = Returned (success u1) ∧
    User.email u1 = "jo@x.com".
Proof.
  apply (signup_then_login Sample.clock Sample.clock Resolves Resolves Sample.jo
           (initialWorld ∅) (initialWorld ∅)
           {| User.id := "1700000000000"; User.email := "jo@x.com"; User.name := "Jo" |}).
  reflexivity.
Defined.

(** X5 at a login and a signup one millisecond apart. *)
Lemma ids_differ_with_clock_sample :
  result (sign_in_call 1700000000000 Resolves (inl Sample.a_at_b)) (initialWorld ∅) =
    Returned (success {| User.id := "1700000000000";
                         User.email := "a@b.com";
                         User.name := "a" |}) ∧
  result (sign_in_call 1700000000001 Resolves (inr Sample.jo)) (initialWorld ∅) =
    Returned (success {| User.id := "1700000000001";
                         User.email := "jo@x.com";
                         User.name := "Jo" |}) ∧
  "1700000000000" ≠ "1700000000001".
Proof.
  split; [reflexivity|]. split; [reflexivity|].
  apply (ids_differ_with_clock 1700000000000 1700000000001 Resolves Resolves
           (inl Sample.a_at_b) (inr Sample.jo) (initialWorld ∅) (initialWorld ∅)
           {| User.id := "1700000000000"; User.email := "a@b.com"; User.name := "a" |}
           {| User.id := "1700000000001"; User.email := "jo@x.com"; User.name := "Jo" |}).
  - reflexivity.
  - reflexivity.
  - discriminate.
Defined.

(** X7 with the reference runtime. *)
Lemma save_then_load_sample :
  result (loadUserFromStorage Resolves)
    (after (saveUserToStorage Resolves Sample.ann) (initialWorld ∅)) =
    Returned (User.to_value Sample.ann) ∧
  result (loadUserFromStorage Resolves)
    (after (saveUserToStorage (Rejects Sample.io_error) Sample.ann) (initialWorld ∅)) =
    result (loadUserFromStorage Resolves) (initialWorld ∅).
Proof.
  apply (save_then_load Sample.ann Resolves Sample.io_error (initialWorld ∅)).
  reflexivity.
Defined.

(** X10 at the sample login. *)
Lemma session_survives_restart_sample :
  authState (after (initializeAuth Resolves)
                   (restart (after (sign_in_call Sample.clock Resolves (inl Sample.a_at_b))
                                   (initialWorld ∅)))) =
    {| AuthState.user :=
         User.to_value {| User.id := "1700000000000";
                          User.email := "a@b.com";
                          User.name := "a" |};
       AuthState.isLoading := false;
       AuthState.isAuthenticated := true;
       AuthState.isInitializing := false |}.
Proof.
  apply (session_survives_restart Sample.clock (inl Sample.a_at_b) (initialWorld ∅)
           {| User.id := "1700000000000"; User.email := "a@b.com"; User.name := "a" |}).
  - reflexivity.
  - reflexivity.
Defined.

(** X11 at the sample login. *)
Lemma login_survives_failed_write_sample :
  AuthState.isAuthenticated
    (authState (after (login Sample.clock (Rejects Sample.io_error) Sample.a_at_b)
                      (initialWorld ∅))) = true ∧
  disk (after (login Sample.clock (Rejects Sample.io_error) Sample.a_at_b)
              (initialWorld ∅)) = ∅.
Proof.
  destruct (login_survives_failed_write Sample.clock Sample.io_error Sample.a_at_b
              (initialWorld ∅)) as (_ & Hauth & Hdisk & _).
  - discriminate.
  - discriminate.
  - reflexivity.
  - split; [exact Hauth | exact Hdisk].
Defined.

(** X13 at a stored value that is no mode. *)
Lemma loadTheme_ignores_other_values_sample :
  result (loadTheme Resolves) (initialWorld {[ THEME_STORAGE_KEY := "blue" ]}) = Returned tt ∧
  theme (after (loadTheme Resolves) (initialWorld {[ THEME_STORAGE_KEY := "blue" ]})) =
    light ∧
  themeIsLoading (after (loadTheme Resolves) (initialWorld {[ THEME_STORAGE_KEY := "blue" ]})) =
    false.
Proof.
  apply (loadTheme_ignores_other_values Resolves "blue"
           (initialWorld {[ THEME_STORAGE_KEY := "blue" ]})).
  - discriminate.
  - discriminate.
  - reflexivity.
Defined.

(** X17 after the sample login. *)
Lemma HomeScreen_has_user_sample :
  HomeScreen
    (authState (perform_all [Restore Resolves; Login Sample.clock Resolves Sample.a_at_b]
                  (initialWorld ∅))) =
  Welcome
    (AuthState.user
       (authState (perform_all [Restore Resolves; Login Sample.clock Resolves Sample.a_at_b]
                     (initialWorld ∅)))).
Proof.
  apply (HomeScreen_has_user ∅ [Restore Resolves; Login Sample.clock Resolves Sample.a_at_b]).
  reflexivity.
Defined.

(** X20 at the sample login. *)
Lemma logout_during_login_sample :
  AuthState.isAuthenticated
    (authState (after (login_resume Sample.clock Resolves Sample.a_at_b)
                  (after (logout Resolves)
                     (after (login_begin Sample.a_at_b) (initialWorld ∅))))) = true.
Proof.
  destruct (logout_during_login_is_overridden Sample.clock Resolves Resolves
              Sample.a_at_b (initialWorld ∅)) as (_ & _ & _ & Hauth & _).
  - discriminate.
  - discriminate.
  - reflexivity.
  - exact Hauth.
Defined.

(** X22 at a form with spaces around the email. *)
Lemma handleLogin_signs_in_sample :
  JS.get "email"
    (AuthState.user
       (authState (after (LoginScreen.handleLogin Sample.clock Resolves
                            Sample.typed_email Sample.typed_password) (initialWorld ∅)))) =
  Some (JS.Str (SignupScreen.trim Sample.typed_email)).
Proof.
  destruct (handleLogin_signs_in Sample.clock Resolves Sample.typed_email
              Sample.typed_password (initialWorld ∅)) as (_ & _ & _ & Hemail).
  - reflexivity.
  - exact Hemail.
Defined.

(** X23 at a form with spaces around the name and the email. *)
Lemma handleSignup_signs_in_sample :
  2 ≤ String.length (SignupScreen.trim Sample.typed_name).
Proof.
  destruct (handleSignup_signs_in Sample.clock Resolves Sample.typed_name
              Sample.typed_email Sample.typed_password (initialWorld ∅))
    as (_ & _ & _ & Hlen).
  - reflexivity.
  - exact Hlen.
Defined.

Example typed_form_is_trimmed :
  SignupScreen.trim Sample.typed_email = "ann@b.com" ∧
  SignupScreen.trim Sample.typed_name = "Ann".
Proof. by vm_compute. Qed.

End more_samples.
